(** * ApiClient (expediagroup/sdk/core/client/api.py)

    A shallow embedding of the HTTP client wrapper: header preparation,
    request dispatch and response resolution, with the libraries it calls
    (pydantic, json, enum, uuid, requests) kept behind interfaces. *)

From Stdlib Require Import ZArith String Ascii List.
From stdpp Require Import base option list gmap strings.

Local Open Scope Z_scope.
Local Open Scope string_scope.

(** ** Library interfaces *)

(** What the client uses of pydantic, enum and uuid.  [parse_obj_as shape j]
    is [None] when pydantic raises a validation error;
    [BaseModel_json b exclude_none exclude_unset] is [None] when the export
    raises. *)
Class PyLib := {
  Json : Type;
  Shape : Type;
  Obj : Type;
  parse_obj_as : Shape → Json → option Obj;
  BaseModel : Type;
  BaseModel_json : BaseModel → bool → bool → option string;
  Enum : Type;
  Enum_bool : Enum → bool;
  UUID : Type;
}.

(** ** Python values that occur as header values *)

Inductive header_value `{PyLib} : Type :=
| PyNone
| PyStr (s : string)
| PyInt (n : Z)
| PyBool (b : bool)
| PyEnum (e : Enum)
| PyUUID (u : UUID)
| PyModel (m : BaseModel).

(** Truth value of a header value ([not header_value] is its negation): None,
    the empty string, zero and False are falsy; an enumeration member follows
    its mixed-in type; UUIDs and pydantic models define neither [__bool__]
    nor [__len__]. *)
Definition py_bool `{PyLib} (v : header_value) : bool :=
  match v with
  | PyNone => false
  | PyStr s => negb (String.eqb s "")
  | PyInt n => negb (Z.eqb n 0)
  | PyBool b => b
  | PyEnum e => Enum_bool e
  | PyUUID _ => true
  | PyModel _ => true
  end.

(** [isinstance(v, BaseModel) or isinstance(v, enum.Enum) or
    isinstance(v, uuid.UUID)] *)
Definition needs_serialization `{PyLib} (v : header_value) : bool :=
  match v with
  | PyModel _ | PyEnum _ | PyUUID _ => true
  | _ => false
  end.

(** [key in seq] for a range, tuple or list of integers. *)
Definition py_in (x : Z) (l : list Z) : bool := existsb (Z.eqb x) l.
Global Arguments py_in : simpl never.

(** [str.upper] on ASCII letters. *)
Definition upper_ascii (c : ascii) : ascii :=
  let n := nat_of_ascii c in
  if (97 <=? n)%nat && (n <=? 122)%nat then ascii_of_nat (n - 32) else c.

Fixpoint upper (s : string) : string :=
  match s with
  | EmptyString => EmptyString
  | String c r => String (upper_ascii c) (upper r)
  end.

(** A [requests.Response] as the client sees it: the status code and what
    [response.json()] gives ([None]: the body is not JSON). *)
Record Response `{PyLib} := {
  status_code : Z;
  json_body : option Json;
}.

(** ** Constants and classes of the SDK that the client imports *)

(** [OK_STATUS_CODES_RANGE], [header_constant.API_REQUEST], the generic
    [Error] model and the exception classes live in other modules of the SDK;
    [json_dumps v] is [json.dumps(v, default=pydantic_encoder)], [None] when
    it raises [TypeError].  The auth client is a collaborator with a state of
    its own. *)
Class Sdk `{PyLib} := {
  OK_STATUS_CODES_RANGE : list Z;
  API_REQUEST : gmap string header_value;
  json_dumps : header_value → option string;
  Error : Shape;
  ExcClass : Type;
  ExpediaGroupApiException : ExcClass;
  AuthState : Type;
  Credential : Type;
  refresh_token : AuthState → option AuthState;
  auth_header : AuthState → Credential;
}.

(** An entry of [error_responses]: [.model] and [.exception]. *)
Record ErrorResponse `{Sdk} := {
  model : Shape;
  exception : ExcClass;
}.

(** Members of [http.HTTPStatus] (Python 3.9 and later). *)
Definition HTTPStatus_values : list Z :=
  [100; 101; 102; 103;
   200; 201; 202; 203; 204; 205; 206; 207; 208; 226;
   300; 301; 302; 303; 304; 305; 307; 308;
   400; 401; 402; 403; 404; 405; 406; 407; 408; 409; 410; 411; 412; 413;
   414; 415; 416; 417; 418; 421; 422; 423; 424; 425; 426; 428; 429; 431; 451;
   500; 501; 502; 503; 504; 505; 506; 507; 508; 510; 511].

Inductive http_status := HTTPStatusMember (value : Z).

Definition http_status_value (s : http_status) : Z :=
  match s with HTTPStatusMember v => v end.

(** The arguments of [requests.request]. *)
Record Request `{Sdk} := {
  req_method : string;
  req_url : string;
  req_headers : gmap string header_value;
  req_data : option string;
  req_auth : Credential;
  req_timeout : Z;
}.

(** ** Exceptions *)

Inductive exn `{Sdk} : Type :=
| JSONDecodeError
| ValidationError
| ValueError (code : Z)
| TypeError
| AuthError
| TransportError
| ServiceException (cls : ExcClass) (error : Obj) (error_code : http_status).

Inductive result `{Sdk} (A : Type) : Type :=
| Return (a : A)
| Raise (e : exn).
Arguments Return {_ _ _} _.
Arguments Raise {_ _ _} _.

(** Modelled from the spec: the [of] class method of the exception classes
    (expediagroup.sdk.core.model.exception.service), which builds the
    exception of the class with the parsed error object and the status code
    attached. *)
Definition exception_of `{Sdk} (cls : ExcClass) (error : Obj) (error_code : http_status) : exn :=
  ServiceException cls error error_code.

(** ** The world the client runs in *)

(** Dict objects live in a heap and are passed by reference; [wire] is what
    was handed to the transport, [logs] what [LOG.info] received, and
    [attempts] records each candidate model on which a decode was started. *)
Definition loc := nat.

Record World `{Sdk} := {
  heap : list (gmap string header_value);
  auth : AuthState;
  wire : list Request;
  logs : list string;
  attempts : list Shape;
}.

Definition set_heap `{Sdk} (h : list (gmap string header_value)) (w : World) : World :=
  {| heap := h; auth := auth w; wire := wire w; logs := logs w; attempts := attempts w |}.

Definition set_auth `{Sdk} (a : AuthState) (w : World) : World :=
  {| heap := heap w; auth := a; wire := wire w; logs := logs w; attempts := attempts w |}.

Definition set_wire `{Sdk} (r : list Request) (w : World) : World :=
  {| heap := heap w; auth := auth w; wire := r; logs := logs w; attempts := attempts w |}.

Definition set_logs `{Sdk} (l : list string) (w : World) : World :=
  {| heap := heap w; auth := auth w; wire := wire w; logs := l; attempts := attempts w |}.

Definition set_attempts `{Sdk} (a : list Shape) (w : World) : World :=
  {| heap := heap w; auth := auth w; wire := wire w; logs := logs w; attempts := a |}.

(** State and exceptions: the state survives a raise. *)
Definition M `{Sdk} (A : Type) : Type := World → World * result A.

Definition ret `{Sdk} {A} (a : A) : M A := λ w, (w, Return a).

Definition bind `{Sdk} {A B} (m : M A) (k : A → M B) : M B :=
  λ w, match m w with
       | (w', Return a) => k a w'
       | (w', Raise e) => (w', Raise e)
       end.

Definition raise `{Sdk} {A} (e : exn) : M A := λ w, (w, Raise e).

(** [try: m except Exception: handler] *)
Definition try_except `{Sdk} {A} (m : M A) (handler : exn → M A) : M A :=
  λ w, match m w with
       | (w', Return a) => (w', Return a)
       | (w', Raise e) => handler e w'
       end.

(** A library call that either gives a value or raises [e]. *)
Definition call_or_raise `{Sdk} {A} (e : exn) (o : option A) : M A :=
  match o with
  | Some a => ret a
  | None => raise e
  end.

Declare Scope py_scope.
Delimit Scope py_scope with py.
Notation "x <- m ;; k" := (bind m (λ x, k))
  (at level 100, m at next level, right associativity) : py_scope.
Notation "m >> k" := (bind m (λ _, k))
  (at level 100, right associativity) : py_scope.
Local Open Scope py_scope.

(** [for x in l: body x], where [continue] ends the body. *)
Fixpoint for_each `{Sdk} {A} (l : list A) (body : A → M unit) : M unit :=
  match l with
  | [] => ret tt
  | x :: r => body x >> for_each r body
  end.

(** ** Dict objects *)

(** [dict()] *)
Definition new_dict `{Sdk} : M loc :=
  λ w, (set_heap (heap w ++ [∅]) w, Return (length (heap w))).

(** The mapping a reference denotes. *)
Definition deref `{Sdk} (d : loc) : M (gmap string header_value) :=
  λ w, (w, Return (heap w !!! d)).

(** [d.items()], read when the loop starts: no loop of the client writes to
    the dict it iterates over.  The items come in the order of the map, not
    in insertion order; the loops write distinct keys, so the dict they
    build does not depend on it. *)
Definition dict_items `{Sdk} (d : loc) : M (list (string * header_value)) :=
  m <- deref d ;; ret (map_to_list m).

(** [d[k] = v] *)
Definition dict_setitem `{Sdk} (d : loc) (k : string) (v : header_value) : M unit :=
  λ w, (set_heap (alter (insert k v) d (heap w)) w, Return tt).

(** [k in d.keys()], on the dict as it is now. *)
Definition dict_contains `{Sdk} (d : loc) (k : string) : M bool :=
  m <- deref d ;; ret (bool_decide (is_Some (m !! k))).

(** [not d] for a dict: it has no entries. *)
Definition dict_not `{Sdk} (d : loc) : M bool :=
  m <- deref d ;; ret (Nat.eqb (size m) 0).

(** ** Header preparation *)

(** The body of the loop over [API_REQUEST.items()]. *)
Definition fill_entry `{Sdk} (request_headers : loc) (item : string * header_value) : M unit :=
  let '(key, value) := item in
  present <- dict_contains request_headers key ;;
  if present then ret tt
  else dict_setitem request_headers key value.

Definition fill_request_headers `{Sdk} (request_headers : loc) : M loc :=
  empty <- dict_not request_headers ;;
  request_headers <- (if empty then new_dict else ret request_headers) ;;
  for_each (map_to_list API_REQUEST) (fill_entry request_headers) >>
  ret request_headers.

(** The body of the loop over [headers.items()]. *)
Definition prepare_entry `{Sdk} (request_headers : loc) (item : string * header_value) : M unit :=
  let '(header_key, header_value) := item in
  if negb (py_bool header_value) then ret tt
  else
    v <- (if needs_serialization header_value
          then s <- call_or_raise TypeError (json_dumps header_value) ;; ret (PyStr s)
          else ret header_value) ;;
    dict_setitem request_headers header_key v.

Definition prepare_request_headers `{Sdk} (headers : loc) : M loc :=
  request_headers <- new_dict ;;
  items <- dict_items headers ;;
  for_each items (prepare_entry request_headers) >>
  fill_request_headers request_headers.

(** The mapping a call of [prepare_request_headers] returns: what the
    returned reference denotes in the world the call leaves. *)
Definition prepared_of `{Sdk} (w : World) (headers : loc) :
    option (gmap string header_value) :=
  match prepare_request_headers headers w with
  | (w', Return l) => heap w' !! l
  | (_, Raise _) => None
  end.

(** What the loop of [prepare_request_headers] leaves in the new dict for a
    value: nothing for a falsy one, the text [json.dumps] gives for a model,
    an enumeration member or a UUID, the value itself otherwise. *)
Definition stored `{Sdk} (v : header_value) : option header_value :=
  if negb (py_bool v) then None
  else if needs_serialization v then PyStr <$> json_dumps v
  else Some v.

(** The serializer is not called on [v], or it succeeds. *)
Definition serializes `{Sdk} (v : header_value) : bool :=
  negb (py_bool v) || negb (needs_serialization v)
  || bool_decide (is_Some (json_dumps v)).

(** The effect of one pass of either loop on the dict it writes to. *)
Definition store_entry `{Sdk} (acc : gmap string header_value)
    (item : string * header_value) : gmap string header_value :=
  match stored item.2 with
  | Some v => <[item.1 := v]> acc
  | None => acc
  end.

Definition fill_step `{PyLib} (acc : gmap string header_value)
    (item : string * header_value) : gmap string header_value :=
  if bool_decide (is_Some (acc !! item.1)) then acc else <[item.1 := item.2]> acc.

(** ** Response resolution *)

(** [response.json()] *)
Definition Response_json `{Sdk} (response : Response) : M Json :=
  call_or_raise JSONDecodeError (json_body response).

(** [pydantic.parse_obj_as(shape, data)] *)
Definition pydantic_parse_obj_as `{Sdk} (shape : Shape) (data : Json) : M Obj :=
  call_or_raise ValidationError (parse_obj_as shape data).

(** [Error.parse_obj(data)] *)
Definition Error_parse_obj `{Sdk} (data : Json) : M Obj :=
  call_or_raise ValidationError (parse_obj_as Error data).

(** [HTTPStatus(code)]: the member with that value, or ValueError. *)
Definition HTTPStatus `{Sdk} (code : Z) : M http_status :=
  if py_in code HTTPStatus_values then ret (HTTPStatusMember code)
  else raise (ValueError code).

(** Entering the [try] block for a candidate model. *)
Definition attempt `{Sdk} (shape : Shape) : M unit :=
  λ w, (set_attempts (attempts w ++ [shape]) w, Return tt).

(** The loop over [response_models]; [response_object] is still [None] when
    the loop runs out. *)
Fixpoint try_response_models `{Sdk} (response : Response)
    (response_models : list (option Shape)) : M (option Obj) :=
  match response_models with
  | [] => ret None
  | None :: rest => try_response_models response rest
  | Some shape :: rest =>
      try_except
        (attempt shape >>
         data <- Response_json response ;;
         response_object <- pydantic_parse_obj_as shape data ;;
         ret (Some response_object))
        (λ _, try_response_models response rest)
  end.

Definition build_response `{Sdk} (response : Response)
    (response_models : list (option Shape))
    (error_responses : gmap Z ErrorResponse) : M (option Obj) :=
  if negb (py_in (status_code response) OK_STATUS_CODES_RANGE) then
    exc <- match error_responses !! status_code response with
           | Some entry =>
               data <- Response_json response ;;
               error_object <- pydantic_parse_obj_as (model entry) data ;;
               error_code <- HTTPStatus (status_code response) ;;
               ret (exception_of (exception entry) error_object error_code)
           | None =>
               data <- Response_json response ;;
               error <- Error_parse_obj data ;;
               error_code <- HTTPStatus (status_code response) ;;
               ret (exception_of ExpediaGroupApiException error error_code)
           end ;;
    raise exc
  else try_response_models response response_models.

(** ** Dispatch *)

(** The transport and the logging helpers. *)
Class Transport `{Sdk} := {
  requests_request : Request → option Response;
  request_log : gmap string header_value → string → string → string → Response → string;
  EXPEDIAGROUP_LOG_MESSAGE_TEMPLATE_format : string → string;
}.

Record ApiClient := {
  endpoint : string;
  request_timeout : Z;
}.

(** [self.__auth_client.refresh_token()] *)
Definition auth_client_refresh_token `{Sdk} : M unit :=
  λ w, match refresh_token (auth w) with
       | Some a => (set_auth a w, Return tt)
       | None => (w, Raise AuthError)
       end.

(** [requests.request(...)]: the request goes on the wire with the headers
    as the dict holds them at that moment. *)
Definition requests_dot_request `{Transport} (self : ApiClient) (method url : string)
    (headers : loc) (data : option string) : M Response :=
  λ w,
    let request := {| req_method := method; req_url := url;
                      req_headers := heap w !!! headers; req_data := data;
                      req_auth := auth_header (auth w);
                      req_timeout := request_timeout self |} in
    let w' := set_wire (wire w ++ [request]) w in
    match requests_request request with
    | Some response => (w', Return response)
    | None => (w', Raise TransportError)
    end.

(** [LOG.info(msg)] *)
Definition LOG_info `{Sdk} (msg : string) : M unit :=
  λ w, (set_logs (logs w ++ [msg]) w, Return tt).

Definition call `{Transport} (self : ApiClient) (method url : string)
    (body : option BaseModel) (headers : loc)
    (response_models : list (option Shape))
    (error_responses : gmap Z ErrorResponse) : M (option Obj) :=
  auth_client_refresh_token >>
  request_headers <- prepare_request_headers headers ;;
  sent <- match body with
          | None =>
              response <- requests_dot_request self (upper method) url
                            request_headers None ;;
              ret (response, "{}")
          | Some b =>
              request_body <- call_or_raise TypeError (BaseModel_json b true true) ;;
              response <- requests_dot_request self (upper method) url
                            request_headers (Some request_body) ;;
              ret (response, request_body)
          end ;;
  let '(response, request_body) := sent in
  headers_now <- deref request_headers ;;
  LOG_info (EXPEDIAGROUP_LOG_MESSAGE_TEMPLATE_format
              (request_log headers_now request_body url method response)) >>
  build_response response response_models error_responses.

(** ** Construction *)

(** What [__init__] reads of a [ClientConfig]. *)
Module Config.
Record AuthConfig (Creds : Type) := {
  credentials : Creds;
  auth_endpoint : string;
}.
Arguments credentials {_} _.
Arguments auth_endpoint {_} _.
Record ClientConfig (Creds : Type) := {
  endpoint : string;
  request_timeout : Z;
  auth_config : AuthConfig Creds;
}.
Arguments endpoint {_} _.
Arguments request_timeout {_} _.
Arguments auth_config {_} _.
End Config.

(** [ApiClient.__init__(config, auth_client_cls)]: the auth client built by
    [auth_client_cls(credentials=..., auth_endpoint=...)] becomes the auth
    client of the new object, which copies the endpoint and the timeout. *)
Definition __init__ `{Sdk} {Creds : Type} (config : Config.ClientConfig Creds)
    (auth_client_cls : Creds → string → AuthState) : M ApiClient :=
  λ w, (set_auth (auth_client_cls
                    (Config.credentials (Config.auth_config config))
                    (Config.auth_endpoint (Config.auth_config config))) w,
        Return {| endpoint := Config.endpoint config;
                  request_timeout := Config.request_timeout config |}).

(** ** A concrete instance of the interfaces *)

Module Demo.

(** JSON documents: scalars and flat objects with string members. *)
Inductive json :=
| JNull
| JStr (s : string)
| JNum (n : Z)
| JObj (fields : list (string * string)).

(** A shape is a named list of required string fields; a parsed object keeps
    the name of its shape and those fields. *)
Record shape := { shape_name : string; required : list string }.
Record obj := { obj_shape : string; obj_fields : list (string * string) }.

Definition json_field (fields : list (string * string)) (k : string) : option string :=
  snd <$> find (λ kv, String.eqb (fst kv) k) fields.

Fixpoint collect (fields : list (string * string)) (keys : list string) :
    option (list (string * string)) :=
  match keys with
  | [] => Some []
  | k :: r =>
      match json_field fields k, collect fields r with
      | Some s, Some l => Some ((k, s) :: l)
      | _, _ => None
      end
  end.

Definition parse (sh : shape) (j : json) : option obj :=
  match j with
  | JObj fields =>
      match collect fields (required sh) with
      | Some l => Some {| obj_shape := shape_name sh; obj_fields := l |}
      | None => None
      end
  | _ => None
  end.

(** A model instance: each field has a value (or null) and a flag telling
    whether it was set explicitly. *)
Record field := { f_name : string; f_value : option string; f_set : bool }.

Definition keep (exclude_none exclude_unset : bool) (f : field) : bool :=
  negb (exclude_none && negb (bool_decide (is_Some (f_value f))))
  && negb (exclude_unset && negb (f_set f)).

Definition render (f : field) : string :=
  f_name f ++ "=" ++ default "null" (f_value f) ++ ";".

Definition export (b : list field) (exclude_none exclude_unset : bool) : option string :=
  Some (String.concat "" (map render (filter (λ f, keep exclude_none exclude_unset f = true) b))).

Inductive enum := Plain (name : string) | IntMixed (value : Z).

Definition enum_bool (e : enum) : bool :=
  match e with
  | Plain _ => true
  | IntMixed v => negb (Z.eqb v 0)
  end.

#[export] Instance pylib : PyLib := {|
  Json := json;
  Shape := shape;
  Obj := obj;
  parse_obj_as := parse;
  BaseModel := list field;
  BaseModel_json := export;
  Enum := enum;
  Enum_bool := enum_bool;
  UUID := string;
|}.

Definition dumps (v : header_value) : option string :=
  match v with
  | PyEnum (Plain name) => Some name
  | PyEnum (IntMixed 1) => Some "1"
  | PyUUID u => Some u
  | PyModel m => export m false false
  | _ => None
  end.

Definition defaults : gmap string header_value :=
  <["Accept" := PyStr "application/json"]>
  (<["Content-Type" := PyStr "application/json"]> ∅).

#[export] Instance sdk : Sdk := {|
  OK_STATUS_CODES_RANGE := seqZ 200 100;
  API_REQUEST := defaults;
  json_dumps := dumps;
  Error := {| shape_name := "Error"; required := [] |};
  ExcClass := string;
  ExpediaGroupApiException := "ExpediaGroupApiException";
  AuthState := nat;
  Credential := nat;
  refresh_token := λ n, Some (S n);
  auth_header := λ n, n;
|}.

Definition respond (request : Request) : option Response :=
  if String.eqb (req_url request) "https://api.example.com/x" then
    Some {| status_code := 404; json_body := Some (JObj [("message", "missing")]) |}
  else if String.eqb (req_url request) "https://api.example.com/users/7" then
    Some {| status_code := 200; json_body := Some (JObj [("id", "7")]) |}
  else None.

#[export] Instance transport : Transport := {|
  requests_request := respond;
  request_log := λ _ body url method _, method ++ " " ++ url ++ " " ++ body;
  EXPEDIAGROUP_LOG_MESSAGE_TEMPLATE_format := λ msg, "ExpediaGroup: " ++ msg;
|}.

Definition UserModel : shape := {| shape_name := "UserModel"; required := ["id"] |}.
Definition NotFoundError : shape := {| shape_name := "NotFoundError"; required := ["message"] |}.
Definition ShapeA : shape := {| shape_name := "ShapeA"; required := ["a"] |}.
Definition ShapeB : shape := {| shape_name := "ShapeB"; required := ["b"] |}.

Definition not_found_entry : ErrorResponse :=
  {| model := NotFoundError; exception := "NotFoundException" |}.

Definition error_map : gmap Z ErrorResponse := <[404 := not_found_entry]> ∅.

Definition world (h : list (gmap string header_value)) : World :=
  {| heap := h; auth := 0%nat; wire := []; logs := []; attempts := [] |}.

Definition client : ApiClient :=
  {| endpoint := "https://api.example.com"; request_timeout := 30 |}.

Definition new_user : BaseModel :=
  [ {| f_name := "name"; f_value := Some "ada"; f_set := true |};
    {| f_name := "nick"; f_value := None; f_set := true |};
    {| f_name := "role"; f_value := Some "guest"; f_set := false |} ].

Definition not_found : Response :=
  {| status_code := 404; json_body := Some (JObj [("message", "missing")]) |}.
Definition unassigned : Response :=
  {| status_code := 599; json_body := Some (JObj [("message", "boom")]) |}.
Definition unassigned_html : Response :=
  {| status_code := 599; json_body := None |}.
Definition bad_gateway_html : Response :=
  {| status_code := 502; json_body := None |}.
Definition ok_b : Response :=
  {| status_code := 200; json_body := Some (JObj [("b", "1")]) |}.

Definition request_id : header_value := PyUUID "123e4567".

Definition caller_headers : gmap string header_value :=
  <["X-Trace" := PyNone]>
  (<["X-Request-Id" := request_id]>
  (<["Accept" := PyStr "text/plain"]> ∅)).
Definition only_none : gmap string header_value := <["X-Trace" := PyNone]> ∅.
Definition none_on_default : gmap string header_value := <["Accept" := PyNone]> ∅.
Definition zero_count : gmap string header_value := <["X-Retry-Count" := PyInt 0]> ∅.

(** An enumeration member the serializer of this instance rejects. *)
Definition odd_mode : header_value := PyEnum (IntMixed 2).
Definition bad_headers : gmap string header_value :=
  <["X-Mode" := odd_mode]> (<["Accept" := PyStr "text/plain"]> ∅).

Definition ok_html : Response := {| status_code := 200; json_body := None |}.
Definition not_found_text : Response :=
  {| status_code := 404; json_body := Some (JStr "missing") |}.

Definition config : Config.ClientConfig nat :=
  {| Config.endpoint := "https://api.example.com";
     Config.request_timeout := 30;
     Config.auth_config :=
       {| Config.credentials := 41%nat;
          Config.auth_endpoint := "https://auth.example.com/token" |} |}.

Definition auth_client_cls (creds : nat) (auth_endpoint : string) : AuthState := creds.

Definition user_models : list (option Shape) := [Some UserModel].
Definition no_body : option BaseModel := None.

End Demo.

(** ** An instance whose collaborators fail *)

(** The token cannot be refreshed from state 0, a model with a field without
    a name cannot be exported, and the transport is unreachable. *)
Module Outage.

Definition export (b : list Demo.field) (exclude_none exclude_unset : bool) :
    option string :=
  if existsb (λ f, String.eqb (Demo.f_name f) "") b then None
  else Demo.export b exclude_none exclude_unset.

#[export] Instance pylib : PyLib := {|
  Json := Demo.json;
  Shape := Demo.shape;
  Obj := Demo.obj;
  parse_obj_as := Demo.parse;
  BaseModel := list Demo.field;
  BaseModel_json := export;
  Enum := Demo.enum;
  Enum_bool := Demo.enum_bool;
  UUID := string;
|}.

#[export] Instance sdk : Sdk := {|
  OK_STATUS_CODES_RANGE := seqZ 200 100;
  API_REQUEST := ∅;
  json_dumps := λ _, None;
  Error := {| Demo.shape_name := "Error"; Demo.required := [] |};
  ExcClass := string;
  ExpediaGroupApiException := "ExpediaGroupApiException";
  AuthState := nat;
  Credential := nat;
  refresh_token := λ n, match n with O => None | S _ => Some n end;
  auth_header := λ n, n;
|}.

#[export] Instance transport : Transport := {|
  requests_request := λ _, None;
  request_log := λ _ body url method _, method;
  EXPEDIAGROUP_LOG_MESSAGE_TEMPLATE_format := λ msg, msg;
|}.

Definition world (a : nat) (h : list (gmap string header_value)) : World :=
  {| heap := h; auth := a; wire := []; logs := []; attempts := [] |}.

Definition client : ApiClient :=
  {| endpoint := "https://api.example.com"; request_timeout := 30 |}.

Definition nameless : BaseModel :=
  [ {| Demo.f_name := ""; Demo.f_value := Some "x"; Demo.f_set := true |} ].

Definition no_headers : gmap string header_value := ∅.
Definition no_models : list (option Shape) := [].
Definition no_errors : gmap Z ErrorResponse := ∅.

End Outage.

(** * Properties *)

Local Open Scope list_scope.

(** ** Response resolution *)

Section Resolution.
Context `{Sdk}.

(** The error branch never touches the world. *)
Lemma build_response_error_world (response : Response)
    (response_models : list (option Shape))
    (error_responses : gmap Z ErrorResponse) (w : World) :
  py_in (status_code response) OK_STATUS_CODES_RANGE = false →
  ∃ e, build_response response response_models error_responses w = (w, Raise e).
Proof.
  intros Hout. unfold build_response. rewrite Hout. simpl.
  unfold bind, Response_json, pydantic_parse_obj_as, Error_parse_obj, HTTPStatus,
    call_or_raise, raise, ret.
  destruct (error_responses !! status_code response) as [entry|];
    destruct (json_body response) as [j|]; simpl; eauto.
  - destruct (parse_obj_as (model entry) j); simpl; eauto.
    destruct (py_in (status_code response) HTTPStatus_values); simpl; eauto.
  - destruct (parse_obj_as Error j); simpl; eauto.
    destruct (py_in (status_code response) HTTPStatus_values); simpl; eauto.
Qed.

(** One pass of the loop body on a candidate that does not decode. *)
Lemma try_response_models_skip (response : Response) (shape : Shape)
    (rest : list (option Shape)) (w : World) :
  json_body response ≫= parse_obj_as shape = None →
  try_response_models response (Some shape :: rest) w
  = try_response_models response rest (set_attempts (attempts w ++ [shape]) w).
Proof.
  intros Hfail. simpl. unfold try_except, bind, attempt, Response_json,
    pydantic_parse_obj_as, call_or_raise, raise, ret.
  destruct (json_body response) as [j|]; simpl in *; [|done].
  by rewrite Hfail.
Qed.

Lemma try_response_models_hit (response : Response) (shape : Shape)
    (rest : list (option Shape)) (o : Obj) (w : World) :
  json_body response ≫= parse_obj_as shape = Some o →
  try_response_models response (Some shape :: rest) w
  = (set_attempts (attempts w ++ [shape]) w, Return (Some o)).
Proof.
  intros Hok. simpl. unfold try_except, bind, attempt, Response_json,
    pydantic_parse_obj_as, call_or_raise, raise, ret.
  destruct (json_body response) as [j|]; simpl in *; [|done].
  by rewrite Hok.
Qed.

Lemma set_attempts_app (w : World) (l1 l2 : list Shape) :
  set_attempts (attempts (set_attempts (attempts w ++ l1) w) ++ l2)
    (set_attempts (attempts w ++ l1) w)
  = set_attempts (attempts w ++ l1 ++ l2) w.
Proof. unfold set_attempts. simpl. by rewrite app_assoc. Qed.

Lemma set_attempts_nil (w : World) : set_attempts (attempts w ++ []) w = w.
Proof. destruct w. unfold set_attempts. simpl. by rewrite app_nil_r. Qed.

(** Candidates that do not decode are passed over, each one recorded. *)
Lemma try_response_models_prefix (response : Response)
    (pre rest : list (option Shape)) (w : World) :
  Forall (λ c, ∀ s, c = Some s → json_body response ≫= parse_obj_as s = None) pre →
  try_response_models response (pre ++ rest) w
  = try_response_models response rest (set_attempts (attempts w ++ omap id pre) w).
Proof.
  intros Hpre. revert w. induction Hpre as [|c pre Hc _ IH]; intros w.
  - simpl. by rewrite set_attempts_nil.
  - destruct c as [s|].
    + change ((Some s :: pre) ++ rest) with (Some s :: (pre ++ rest)).
      rewrite try_response_models_skip by auto.
      rewrite IH, set_attempts_app. reflexivity.
    + simpl. apply IH.
Qed.

(** The success loop changes nothing but the record of attempts. *)
Lemma try_response_models_world (response : Response)
    (response_models : list (option Shape)) :
  ∀ w, ∃ tried o,
    try_response_models response response_models w
    = (set_attempts (attempts w ++ tried) w, Return o).
Proof.
  induction response_models as [|[s|] rest IH]; intros w.
  - exists [], None. simpl. unfold ret. by rewrite set_attempts_nil.
  - destruct (json_body response ≫= parse_obj_as s) as [o|] eqn:Hdec.
    + exists [s], (Some o). by apply try_response_models_hit.
    + rewrite try_response_models_skip by done.
      destruct (IH (set_attempts (attempts w ++ [s]) w)) as (tried & o & ->).
      exists ([s] ++ tried), o. by rewrite set_attempts_app.
  - simpl. apply IH.
Qed.

(** C1: response resolution raises an exception exactly when the status code
    is outside the success range; on such a status no candidate model is
    attempted (the record of attempts is as before), and on a status inside
    the range the outcome is a return, whatever the candidates do. *)
Theorem build_response_raises_iff (response : Response)
    (response_models : list (option Shape))
    (error_responses : gmap Z ErrorResponse) (w : World) :
  ((∃ e, (build_response response response_models error_responses w).2 = Raise e)
   ↔ py_in (status_code response) OK_STATUS_CODES_RANGE = false)
  ∧ (py_in (status_code response) OK_STATUS_CODES_RANGE = false →
     attempts (build_response response response_models error_responses w).1
     = attempts w)
  ∧ (py_in (status_code response) OK_STATUS_CODES_RANGE = true →
     ∃ o, (build_response response response_models error_responses w).2 = Return o).
Proof.
  assert (Hin : py_in (status_code response) OK_STATUS_CODES_RANGE = true →
     ∃ o, (build_response response response_models error_responses w).2 = Return o).
  { intros Hok. unfold build_response. rewrite Hok. simpl.
    destruct (try_response_models_world response response_models w)
      as (tried & o & ->). eauto. }
  split; [split|split; [|done]].
  - intros [e He].
    destruct (py_in (status_code response) OK_STATUS_CODES_RANGE) eqn:Hr; [|done].
    destruct Hin as [o Ho]; [done|]. congruence.
  - intros Hout.
    destruct (build_response_error_world response response_models
                error_responses w Hout) as [e ->]. eauto.
  - intros Hout.
    destruct (build_response_error_world response response_models
                error_responses w Hout) as [e ->]. done.
Qed.

(** Where the error branch reaches its [raise exception]: the status code is
    a member of HTTPStatus and the body decodes as JSON and validates against
    the error shape in force.  With a registered entry the exception is
    built by the entry's exception class from the parse of the body against
    the entry's model; without one it is the generic API exception built
    from the parse against the generic Error shape; in both cases the
    carried status code is the response's. *)
Theorem build_response_typed_exception (response : Response)
    (response_models : list (option Shape))
    (error_responses : gmap Z ErrorResponse) (w : World) (data : Json) :
  py_in (status_code response) OK_STATUS_CODES_RANGE = false →
  py_in (status_code response) HTTPStatus_values = true →
  json_body response = Some data →
  (∀ entry error,
     error_responses !! status_code response = Some entry →
     parse_obj_as (model entry) data = Some error →
     ∃ error_code,
       build_response response response_models error_responses w
       = (w, Raise (exception_of (exception entry) error error_code))
       ∧ http_status_value error_code = status_code response)
  ∧ (∀ error,
     error_responses !! status_code response = None →
     parse_obj_as Error data = Some error →
     ∃ error_code,
       build_response response response_models error_responses w
       = (w, Raise (exception_of ExpediaGroupApiException error error_code))
       ∧ http_status_value error_code = status_code response).
Proof.
  intros Hout Hstd Hjson. unfold build_response. rewrite Hout. simpl.
  split.
  - intros entry error -> Hparse. exists (HTTPStatusMember (status_code response)).
    unfold bind, Response_json, pydantic_parse_obj_as, HTTPStatus, call_or_raise,
      raise, ret.
    by rewrite Hjson, Hparse, Hstd.
  - intros error -> Hparse. exists (HTTPStatusMember (status_code response)).
    unfold bind, Response_json, Error_parse_obj, HTTPStatus, call_or_raise,
      raise, ret.
    by rewrite Hjson, Hparse, Hstd.
Qed.

(** C4: on a success status the candidates are tried in list order, None
    candidates are passed over without a decode, each candidate that fails
    to decode is recorded and followed by the next one, and the instance of
    the first candidate that decodes is returned; when no candidate decodes
    (in particular when all are None) the result is None, by a return. *)
Theorem build_response_first_match (response : Response)
    (response_models : list (option Shape))
    (error_responses : gmap Z ErrorResponse) (w : World) :
  py_in (status_code response) OK_STATUS_CODES_RANGE = true →
  (∀ pre shape post o,
     response_models = pre ++ Some shape :: post →
     Forall (λ c, ∀ s, c = Some s → json_body response ≫= parse_obj_as s = None) pre →
     json_body response ≫= parse_obj_as shape = Some o →
     build_response response response_models error_responses w
     = (set_attempts (attempts w ++ omap id pre ++ [shape]) w, Return (Some o)))
  ∧ (Forall (λ c, ∀ s, c = Some s → json_body response ≫= parse_obj_as s = None)
       response_models →
     build_response response response_models error_responses w
     = (set_attempts (attempts w ++ omap id response_models) w, Return None)).
Proof.
  intros Hok. unfold build_response. rewrite Hok. simpl. split.
  - intros pre shape post o -> Hpre Hhit.
    rewrite try_response_models_prefix by done.
    rewrite (try_response_models_hit _ _ _ o) by done.
    by rewrite set_attempts_app.
  - intros Hall.
    rewrite <- (app_nil_r response_models) at 1.
    by rewrite try_response_models_prefix.
Qed.

(** C9 (amended): for a status code outside the success range that is not a
    member of HTTPStatus, when the body decodes as JSON and validates
    against the error shape in force (the registered model, or the generic
    Error shape), resolution raises the ValueError of the HTTPStatus
    construction and no typed API exception. *)
Theorem build_response_invalid_http_status (response : Response)
    (response_models : list (option Shape))
    (error_responses : gmap Z ErrorResponse) (w : World) (data : Json) :
  py_in (status_code response) OK_STATUS_CODES_RANGE = false →
  py_in (status_code response) HTTPStatus_values = false →
  json_body response = Some data →
  is_Some (parse_obj_as
             (match error_responses !! status_code response with
              | Some entry => model entry
              | None => Error
              end) data) →
  build_response response response_models error_responses w
  = (w, Raise (ValueError (status_code response))).
Proof.
  intros Hout Hstd Hjson [error Hparse]. unfold build_response. rewrite Hout. simpl.
  unfold bind, Response_json, pydantic_parse_obj_as, Error_parse_obj, HTTPStatus,
    call_or_raise, raise, ret.
  destruct (error_responses !! status_code response) as [entry|];
    by rewrite Hjson, Hparse, Hstd.
Qed.

(** C10: for a status code outside the success range and a body that is not
    JSON, the JSON decode error of [response.json()] propagates; no typed
    API exception is raised. *)
Theorem build_response_error_body_not_json (response : Response)
    (response_models : list (option Shape))
    (error_responses : gmap Z ErrorResponse) (w : World) :
  py_in (status_code response) OK_STATUS_CODES_RANGE = false →
  json_body response = None →
  build_response response response_models error_responses w
  = (w, Raise JSONDecodeError).
Proof.
  intros Hout Hjson. unfold build_response. rewrite Hout. simpl.
  unfold bind, Response_json, call_or_raise, raise.
  destruct (error_responses !! status_code response) as [entry|];
    by rewrite Hjson.
Qed.

(** The success loop, without any assumption on which candidates decode. *)
Lemma try_response_models_trace (response : Response)
    (response_models : list (option Shape)) :
  ∀ w, ∃ tried o,
    try_response_models response response_models w
    = (set_attempts (attempts w ++ tried) w, Return o)
    ∧ tried `prefix_of` omap id response_models
    ∧ match o with
      | Some x =>
          ∃ pre s, tried = pre ++ [s]
            ∧ json_body response ≫= parse_obj_as s = Some x
            ∧ Forall (λ s', json_body response ≫= parse_obj_as s' = None) pre
      | None =>
          tried = omap id response_models
          ∧ Forall (λ s', json_body response ≫= parse_obj_as s' = None) tried
      end.
Proof.
  induction response_models as [|[s|] rest IH]; intros w.
  - exists [], None. simpl. unfold ret. rewrite set_attempts_nil. by repeat split.
  - destruct (json_body response ≫= parse_obj_as s) as [x|] eqn:Hdec.
    + exists [s], (Some x). rewrite (try_response_models_hit _ _ _ x) by done.
      split; [done|]. split.
      * simpl. apply prefix_cons, prefix_nil.
      * exists [], s. by repeat split.
    + rewrite try_response_models_skip by done.
      destruct (IH (set_attempts (attempts w ++ [s]) w))
        as (tried & o & -> & Hprefix & Ho).
      exists (s :: tried), o. split; [by rewrite set_attempts_app|]. split.
      * simpl. by apply prefix_cons.
      * destruct o as [x|].
        -- destruct Ho as (pre & s' & -> & Hs' & Hpre).
           exists (s :: pre), s'. split; [done|]. split; [done|].
           by apply Forall_cons.
        -- destruct Ho as [-> Hall]. split; [done|]. by apply Forall_cons.
  - simpl. apply IH.
Qed.

Lemma try_response_models_result (response : Response)
    (response_models : list (option Shape)) :
  ∀ w1 w2,
    (try_response_models response response_models w1).2
    = (try_response_models response response_models w2).2.
Proof.
  induction response_models as [|[s|] rest IH]; intros w1 w2.
  - done.
  - destruct (json_body response ≫= parse_obj_as s) as [x|] eqn:Hdec.
    + by rewrite !(try_response_models_hit _ _ _ x).
    + rewrite !try_response_models_skip by done. apply IH.
  - simpl. apply IH.
Qed.

(** Resolution changes nothing in the world but the record of attempts, and
    its outcome does not depend on the world. *)
Lemma build_response_world (response : Response)
    (response_models : list (option Shape))
    (error_responses : gmap Z ErrorResponse) (w : World) :
  ∃ tried,
    (build_response response response_models error_responses w).1
    = set_attempts (attempts w ++ tried) w.
Proof.
  destruct (py_in (status_code response) OK_STATUS_CODES_RANGE) eqn:Hr.
  - unfold build_response. rewrite Hr. simpl.
    destruct (try_response_models_world response response_models w)
      as (tried & o & ->). by exists tried.
  - destruct (build_response_error_world response response_models
                error_responses w Hr) as [e ->].
    exists []. by rewrite set_attempts_nil.
Qed.

Lemma build_response_result (response : Response)
    (response_models : list (option Shape))
    (error_responses : gmap Z ErrorResponse) (w1 w2 : World) :
  (build_response response response_models error_responses w1).2
  = (build_response response response_models error_responses w2).2.
Proof.
  unfold build_response.
  destruct (py_in (status_code response) OK_STATUS_CODES_RANGE); simpl.
  - apply try_response_models_result.
  - unfold bind, Response_json, pydantic_parse_obj_as, Error_parse_obj, HTTPStatus,
      call_or_raise, raise, ret.
    destruct (error_responses !! status_code response) as [entry|];
      destruct (json_body response) as [j|]; simpl; try done.
    + destruct (parse_obj_as (model entry) j); simpl; [|done].
      by destruct (py_in (status_code response) HTTPStatus_values).
    + destruct (parse_obj_as Error j); simpl; [|done].
      by destruct (py_in (status_code response) HTTPStatus_values).
Qed.

(** X1: on a status outside the success range, a body that is JSON but does
    not validate against the error shape in force (the registered model, or
    the generic Error shape) makes resolution raise the validation error;
    this happens before HTTPStatus is consulted, whatever the status code. *)
Theorem build_response_validation_error (response : Response)
    (response_models : list (option Shape))
    (error_responses : gmap Z ErrorResponse) (w : World) (data : Json) :
  py_in (status_code response) OK_STATUS_CODES_RANGE = false →
  json_body response = Some data →
  parse_obj_as
    (match error_responses !! status_code response with
     | Some entry => model entry
     | None => Error
     end) data = None →
  build_response response response_models error_responses w
  = (w, Raise ValidationError).
Proof.
  intros Hout Hjson Hparse. unfold build_response. rewrite Hout. simpl.
  unfold bind, Response_json, pydantic_parse_obj_as, Error_parse_obj,
    call_or_raise, raise, ret.
  destruct (error_responses !! status_code response) as [entry|];
    by rewrite Hjson, Hparse.
Qed.

(** X2: on a success status with a body that is not JSON, every candidate
    that is not None is tried, each failure is swallowed, and the result is
    None by a return: the decode error never reaches the caller. *)
Theorem build_response_success_not_json (response : Response)
    (response_models : list (option Shape))
    (error_responses : gmap Z ErrorResponse) (w : World) :
  py_in (status_code response) OK_STATUS_CODES_RANGE = true →
  json_body response = None →
  build_response response response_models error_responses w
  = (set_attempts (attempts w ++ omap id response_models) w, Return None).
Proof.
  intros Hok Hjson. unfold build_response. rewrite Hok. simpl.
  rewrite <- (app_nil_r response_models) at 1.
  rewrite try_response_models_prefix; [done|].
  apply Forall_forall. intros c _ s _. by rewrite Hjson.
Qed.

(** X3: on a success status, whatever the candidates and the body, the
    candidates tried form an initial segment of the candidates that are not
    None; a returned instance is the decode of the last one tried, all tried
    before it having failed, so no candidate after the first success is
    tried; and a None result means that all of them were tried and failed. *)
Theorem build_response_success_trace (response : Response)
    (response_models : list (option Shape))
    (error_responses : gmap Z ErrorResponse) (w : World) :
  py_in (status_code response) OK_STATUS_CODES_RANGE = true →
  ∃ tried o,
    build_response response response_models error_responses w
    = (set_attempts (attempts w ++ tried) w, Return o)
    ∧ tried `prefix_of` omap id response_models
    ∧ match o with
      | Some x =>
          ∃ pre s, tried = pre ++ [s]
            ∧ json_body response ≫= parse_obj_as s = Some x
            ∧ Forall (λ s', json_body response ≫= parse_obj_as s' = None) pre
      | None =>
          tried = omap id response_models
          ∧ Forall (λ s', json_body response ≫= parse_obj_as s' = None) tried
      end.
Proof.
  intros Hok. unfold build_response. rewrite Hok. simpl.
  apply try_response_models_trace.
Qed.

End Resolution.

(** ** Header preparation *)

Section Headers.
Context `{Sdk}.

Lemma set_heap_id (w : World) : set_heap (heap w) w = w.
Proof. by destruct w. Qed.

Lemma set_heap_twice (h1 h2 : list (gmap string header_value)) (w : World) :
  set_heap h2 (set_heap h1 w) = set_heap h2 w.
Proof. done. Qed.

Lemma list_alter_at {A} (f : A → A) (l : list A) (i : nat) (x : A) :
  l !! i = Some x → alter f i l = <[i := f x]> l.
Proof.
  revert i. induction l as [|y l IH]; intros [|i] Hi; simplify_eq/=; [done|].
  f_equal. by apply IH.
Qed.

Lemma dict_setitem_run (d : loc) (k : string) (v : header_value) (w : World)
    (acc : gmap string header_value) :
  heap w !! d = Some acc →
  dict_setitem d k v w = (set_heap (<[d := <[k := v]> acc]> (heap w)) w, Return tt).
Proof. intros Hd. unfold dict_setitem. by rewrite (list_alter_at _ _ _ acc). Qed.

Lemma deref_run (d : loc) (w : World) (acc : gmap string header_value) :
  heap w !! d = Some acc → deref d w = (w, Return acc).
Proof. intros Hd. unfold deref. by rewrite (list_lookup_total_correct _ _ _ Hd). Qed.

Lemma prepare_entry_run (rh : loc) (item : string * header_value) (w : World)
    (acc : gmap string header_value) :
  heap w !! rh = Some acc →
  prepare_entry rh item w
  = if serializes item.2
    then (set_heap (<[rh := store_entry acc item]> (heap w)) w, Return tt)
    else (w, Raise TypeError).
Proof.
  intros Hrh. destruct item as [k v]. unfold prepare_entry, serializes, store_entry, stored.
  simpl. destruct (py_bool v); simpl.
  - destruct (needs_serialization v); simpl.
    + unfold bind, call_or_raise, ret, raise.
      destruct (json_dumps v) as [s|]; simpl; [|done].
      try rewrite bool_decide_true by eauto. by apply dict_setitem_run.
    + unfold bind, ret. by apply dict_setitem_run.
  - by rewrite list_insert_id, set_heap_id.
Qed.

Lemma fill_entry_run (rh : loc) (item : string * header_value) (w : World)
    (acc : gmap string header_value) :
  heap w !! rh = Some acc →
  fill_entry rh item w
  = (set_heap (<[rh := fill_step acc item]> (heap w)) w, Return tt).
Proof.
  intros Hrh. destruct item as [k v]. unfold fill_entry, fill_step, dict_contains, bind.
  rewrite (deref_run _ _ _ Hrh). unfold ret. simpl.
  destruct (bool_decide (is_Some (acc !! k))).
  - by rewrite list_insert_id, set_heap_id.
  - by apply dict_setitem_run.
Qed.

Lemma heap_after_insert (rh : loc) (w : World) (acc acc' : gmap string header_value) :
  heap w !! rh = Some acc →
  heap (set_heap (<[rh := acc']> (heap w)) w) !! rh = Some acc'.
Proof. intros Hrh. simpl. apply list_lookup_insert_eq. by eapply lookup_lt_Some. Qed.

(** The first loop writes to the new dict only; when every value it has to
    serialize serializes, it runs to its end. *)
Lemma prepare_loop_run (rh : loc) (items : list (string * header_value)) :
  ∀ (w : World) (acc : gmap string header_value),
    heap w !! rh = Some acc →
    ∃ acc' r,
      for_each items (prepare_entry rh) w
      = (set_heap (<[rh := acc']> (heap w)) w, r)
      ∧ (Forall (λ item, serializes item.2 = true) items →
         r = Return tt ∧ acc' = foldl store_entry acc items).
Proof.
  induction items as [|item items IH]; intros w acc Hrh.
  - exists acc, (Return tt). simpl. unfold ret.
    by rewrite list_insert_id, set_heap_id.
  - simpl. unfold bind. rewrite (prepare_entry_run _ _ _ _ Hrh).
    destruct (serializes item.2) eqn:Hser.
    + destruct (IH _ _ (heap_after_insert rh w acc (store_entry acc item) Hrh))
        as (acc' & r & Hrun & Hall).
      exists acc', r. rewrite Hrun. simpl. rewrite list_insert_insert_eq. split; [done|].
      intros Hitems. apply Forall_cons in Hitems as [_ Hitems]. by apply Hall.
    + exists acc, (Raise TypeError). rewrite list_insert_id, set_heap_id by done.
      split; [done|]. intros Hitems. apply Forall_cons in Hitems as [Hitem _].
      congruence.
Qed.

Lemma fill_loop_run (rh : loc) (items : list (string * header_value)) :
  ∀ (w : World) (acc : gmap string header_value),
    heap w !! rh = Some acc →
    for_each items (fill_entry rh) w
    = (set_heap (<[rh := foldl fill_step acc items]> (heap w)) w, Return tt).
Proof.
  induction items as [|item items IH]; intros w acc Hrh.
  - simpl. unfold ret. by rewrite list_insert_id, set_heap_id.
  - simpl. unfold bind. rewrite (fill_entry_run _ _ _ _ Hrh).
    rewrite (IH _ _ (heap_after_insert rh w acc (fill_step acc item) Hrh)).
    simpl. by rewrite list_insert_insert_eq.
Qed.

Lemma foldl_store_entry_lookup (items : list (string * header_value)) :
  ∀ (acc : gmap string header_value) (k : string),
    NoDup items.*1 →
    foldl store_entry acc items !! k
    = match (list_to_map items : gmap string header_value) !! k ≫= stored with
      | Some v => Some v
      | None => acc !! k
      end.
Proof.
  induction items as [|[k0 v0] items IH]; intros acc k Hnd.
  - done.
  - apply NoDup_cons in Hnd as [Hk0 Hnd]. simpl. rewrite IH by done.
    unfold store_entry. simpl. destruct (decide (k = k0)) as [->|Hne].
    + rewrite lookup_insert_eq, (not_elem_of_list_to_map_1 _ _ Hk0). simpl.
      destruct (stored v0); [by rewrite lookup_insert_eq|done].
    + rewrite (lookup_insert_ne _ k0 k) by done.
      destruct (list_to_map items !! k ≫= stored); [done|].
      destruct (stored v0); [by rewrite lookup_insert_ne|done].
Qed.

Lemma foldl_store_entry_map (headers : gmap string header_value) :
  foldl store_entry ∅ (map_to_list headers) = omap stored headers.
Proof.
  apply map_eq. intros k.
  rewrite foldl_store_entry_lookup by apply NoDup_fst_map_to_list.
  rewrite list_to_map_to_list, lookup_omap, lookup_empty.
  by destruct (headers !! k ≫= stored).
Qed.

Lemma foldl_fill_step_union (items : list (string * header_value)) :
  ∀ acc : gmap string header_value,
    foldl fill_step acc items = acc ∪ list_to_map items.
Proof.
  induction items as [|[k0 v0] items IH]; intros acc; simpl.
  - by rewrite (right_id_L ∅ (∪)).
  - rewrite IH. unfold fill_step. simpl. case_bool_decide as Hk0.
    + apply map_eq. intros k. rewrite !lookup_union.
      destruct (decide (k = k0)) as [->|Hne].
      * destruct Hk0 as [x ->]. rewrite lookup_insert_eq.
        by destruct (list_to_map items !! k0).
      * by rewrite lookup_insert_ne.
    + apply eq_None_not_Some in Hk0.
      by rewrite <- insert_union_l, insert_union_r.
Qed.

(** The merge step: the dict it is given, or a new one when that is empty,
    ends up holding its own entries and the defaults for the other keys. *)
Lemma fill_request_headers_run (rh : loc) (w : World)
    (acc : gmap string header_value) :
  heap w !! rh = Some acc →
  fill_request_headers rh w
  = if Nat.eqb (size acc) 0
    then (set_heap (heap w ++ [acc ∪ API_REQUEST]) w, Return (length (heap w)))
    else (set_heap (<[rh := acc ∪ API_REQUEST]> (heap w)) w, Return rh).
Proof.
  intros Hrh. unfold fill_request_headers, dict_not, bind.
  rewrite (deref_run _ _ _ Hrh). unfold ret at 1.
  destruct (Nat.eqb (size acc) 0) eqn:Hsize.
  - apply Nat.eqb_eq, map_size_empty_iff in Hsize as ->.
    unfold new_dict.
    rewrite (fill_loop_run _ _ _ ∅) by (simpl; by apply list_lookup_middle).
    rewrite foldl_fill_step_union, list_to_map_to_list. unfold ret. simpl.
    rewrite insert_app_r_alt by done. by rewrite Nat.sub_diag.
  - unfold ret at 1. rewrite (fill_loop_run _ _ _ acc) by done.
    by rewrite foldl_fill_step_union, list_to_map_to_list.
Qed.

(** Header preparation as a whole: whatever the outcome, the world differs
    from the initial one by dicts allocated after the existing ones; when
    every value that needs the serializer serializes, the outcome is a
    reference to a dict holding the stored entries and, for the other keys,
    the defaults. *)
Lemma prepare_request_headers_run (headers : loc) (w : World) :
  ∃ ext r,
    prepare_request_headers headers w = (set_heap (heap w ++ ext) w, r)
    ∧ (∀ l, r = Return l → length (heap w) ≤ l)%nat
    ∧ ∀ hs, heap w !! headers = Some hs →
        map_Forall (λ _ v, serializes v = true) hs →
        ∃ l, r = Return l
             ∧ (heap w ++ ext) !! l = Some (omap stored hs ∪ API_REQUEST).
Proof.
  unfold prepare_request_headers, bind, new_dict, dict_items, bind, deref, ret.
  simpl heap.
  set (n := length (heap w)).
  set (items := map_to_list ((heap w ++ [∅]) !!! headers)).
  destruct (prepare_loop_run n items (set_heap (heap w ++ [∅]) w) ∅)
    as (acc & r1 & Hrun & Hall); [by apply list_lookup_middle|].
  rewrite Hrun. simpl heap. rewrite set_heap_twice.
  rewrite insert_app_r_alt by done. subst n. rewrite Nat.sub_diag. simpl.
  assert (Hitems : ∀ hs, heap w !! headers = Some hs →
            map_Forall (λ _ v, serializes v = true) hs →
            r1 = Return tt ∧ acc = omap stored hs).
  { intros hs Hhs Hser. rewrite <- foldl_store_entry_map.
    assert (items = map_to_list hs) as Hsame.
    { subst items. f_equal. apply list_lookup_total_correct.
      by apply lookup_app_l_Some. }
    apply map_Forall_to_list in Hser. rewrite <- Hsame in *.
    apply Hall. eapply Forall_impl; [exact Hser|]. by intros [k v]. }
  destruct r1 as [[]|e].
  - rewrite (fill_request_headers_run _ _ acc)
      by (simpl; by apply list_lookup_middle).
    simpl heap.
    destruct (Nat.eqb (size acc) 0).
    + exists ([acc] ++ [acc ∪ API_REQUEST]), (Return (length (heap w ++ [acc]))).
      split; [by rewrite <- app_assoc|].
      split; [intros l [= <-]; rewrite length_app; lia|].
      intros hs Hhs Hser. destruct (Hitems hs Hhs Hser) as [_ ->].
      eexists; split; [done|].
      rewrite app_assoc. by apply list_lookup_middle.
    + exists [acc ∪ API_REQUEST], (Return (length (heap w))).
      rewrite insert_app_r_alt, Nat.sub_diag by done.
      split; [done|].
      split; [by intros l [= <-]|].
      intros hs Hhs Hser. destruct (Hitems hs Hhs Hser) as [_ ->].
      eexists; split; [done|]. by apply list_lookup_middle.
  - exists [acc], (Raise e). split; [done|]. split; [done|].
    intros hs Hhs Hser. by destruct (Hitems hs Hhs Hser).
Qed.

Lemma prepared_of_run (headers : loc) (w : World)
    (hs : gmap string header_value) :
  heap w !! headers = Some hs →
  map_Forall (λ _ v, serializes v = true) hs →
  prepared_of w headers = Some (omap stored hs ∪ API_REQUEST).
Proof.
  intros Hhs Hser. unfold prepared_of.
  destruct (prepare_request_headers_run headers w) as (ext & r & -> & _ & Hspec).
  by destruct (Hspec hs Hhs Hser) as (l & -> & Hl).
Qed.

Lemma stored_falsy (v : header_value) : py_bool v = false → stored v = None.
Proof. intros Hv. unfold stored. by rewrite Hv. Qed.

Lemma stored_plain (v : header_value) :
  py_bool v = true → needs_serialization v = false → stored v = Some v.
Proof. intros Hv Hn. unfold stored. by rewrite Hv, Hn. Qed.

Lemma stored_serialized (v : header_value) :
  py_bool v = true → needs_serialization v = true → serializes v = true →
  ∃ s, json_dumps v = Some s ∧ stored v = Some (PyStr s).
Proof.
  intros Hv Hn. unfold serializes, stored. rewrite Hv, Hn. simpl.
  intros [s Hs]%bool_decide_eq_true. exists s. by rewrite Hs.
Qed.

Lemma merged_lookup_kept (hs : gmap string header_value) (k : string)
    (v v' : header_value) :
  hs !! k = Some v → stored v = Some v' →
  (omap stored hs ∪ API_REQUEST) !! k = Some v'.
Proof.
  intros Hk Hv. apply lookup_union_Some_l. by rewrite lookup_omap, Hk.
Qed.

Lemma merged_lookup_default (hs : gmap string header_value) (k : string) :
  (∀ v, hs !! k = Some v → py_bool v = false) →
  (omap stored hs ∪ API_REQUEST) !! k = API_REQUEST !! k.
Proof.
  intros Hk. apply lookup_union_r. rewrite lookup_omap.
  destruct (hs !! k) as [v|] eqn:Hv; [|done]. simpl. apply stored_falsy. auto.
Qed.

(** C3 (amended): the prepared mapping holds the caller's entries whose value
    is truthy (the value itself, or its serialized text for a model, an
    enumeration member or a UUID), plus every default whose key is not among
    these, with the default's value, and no other key; an entry kept from
    the caller is never replaced by a default. *)
Theorem prepare_request_headers_merge (headers : loc) (w : World)
    (hs : gmap string header_value) :
  heap w !! headers = Some hs →
  map_Forall (λ _ v, serializes v = true) hs →
  ∃ prepared,
    prepared_of w headers = Some prepared
    ∧ (∀ k v, hs !! k = Some v → py_bool v = true →
         prepared !! k = stored v ∧ is_Some (stored v))
    ∧ (∀ k d, API_REQUEST !! k = Some d →
         (∀ v, hs !! k = Some v → py_bool v = false) →
         prepared !! k = Some d)
    ∧ (∀ k, is_Some (prepared !! k) ↔
         (∃ v, hs !! k = Some v ∧ py_bool v = true) ∨ is_Some (API_REQUEST !! k)).
Proof.
  intros Hhs Hser.
  exists (omap stored hs ∪ API_REQUEST).
  split; [by apply prepared_of_run|].
  assert (Hkept : ∀ k v, hs !! k = Some v → py_bool v = true →
            ∃ v', stored v = Some v').
  { intros k v Hk Hv. destruct (needs_serialization v) eqn:Hn.
    - destruct (stored_serialized v Hv Hn (Hser k v Hk)) as (s & _ & ->). eauto.
    - rewrite stored_plain by done. eauto. }
  split; [|split].
  - intros k v Hk Hv. destruct (Hkept k v Hk Hv) as [v' Hv'].
    rewrite (merged_lookup_kept hs k v v') by done. rewrite Hv'. eauto.
  - intros k d Hd Hk. by rewrite merged_lookup_default.
  - intros k. split.
    + intros Hin. destruct (hs !! k) as [v|] eqn:Hk.
      * destruct (py_bool v) eqn:Hv; [eauto|].
        right. rewrite <- (merged_lookup_default hs k); [done|].
        intros v0 Hv0. congruence.
      * right. rewrite <- (merged_lookup_default hs k); [done|].
        intros v0 Hv0. congruence.
    + intros [(v & Hk & Hv)|Hd].
      * destruct (Hkept k v Hk Hv) as [v' Hv'].
        rewrite (merged_lookup_kept hs k v v') by done. eauto.
      * destruct (hs !! k) as [v|] eqn:Hk.
        -- destruct (py_bool v) eqn:Hv.
           ++ destruct (Hkept k v Hk Hv) as [v' Hv'].
              rewrite (merged_lookup_kept hs k v v') by done. eauto.
           ++ rewrite merged_lookup_default; [done|]. intros v0 Hv0. congruence.
        -- rewrite merged_lookup_default; [done|]. intros v0 Hv0. congruence.
Qed.

(** C5 (amended): a caller's entry whose value is None is not carried over;
    its key appears in the prepared mapping only when it is a key of the
    defaults, and then with the default's value. *)
Theorem prepare_request_headers_none (headers : loc) (w : World)
    (hs : gmap string header_value) (k : string) :
  heap w !! headers = Some hs →
  map_Forall (λ _ v, serializes v = true) hs →
  hs !! k = Some PyNone →
  ∃ prepared,
    prepared_of w headers = Some prepared
    ∧ prepared !! k = API_REQUEST !! k
    ∧ (API_REQUEST !! k = None → prepared !! k = None).
Proof.
  intros Hhs Hser Hk.
  exists (omap stored hs ∪ API_REQUEST).
  split; [by apply prepared_of_run|].
  assert (Hdef : (omap stored hs ∪ API_REQUEST) !! k = API_REQUEST !! k).
  { apply merged_lookup_default. intros v Hv. by simplify_eq. }
  split; [done|]. intros Hnot. by rewrite Hdef.
Qed.

(** C7 (amended): for a caller's header whose value is truthy, the prepared
    mapping holds the text [json.dumps] gives for it when it is a model, an
    enumeration member or a UUID, and the value itself otherwise; a falsy
    value (None, the empty string, zero, False, a falsy enumeration member)
    is not carried over, and its key holds the default, if there is one. *)
Theorem prepare_request_headers_values (headers : loc) (w : World)
    (hs : gmap string header_value) :
  heap w !! headers = Some hs →
  map_Forall (λ _ v, serializes v = true) hs →
  ∃ prepared,
    prepared_of w headers = Some prepared
    ∧ (∀ k v, hs !! k = Some v → py_bool v = true →
         needs_serialization v = true →
         ∃ s, json_dumps v = Some s ∧ prepared !! k = Some (PyStr s))
    ∧ (∀ k v, hs !! k = Some v → py_bool v = true →
         needs_serialization v = false →
         prepared !! k = Some v)
    ∧ (∀ k v, hs !! k = Some v → py_bool v = false →
         prepared !! k = API_REQUEST !! k).
Proof.
  intros Hhs Hser.
  exists (omap stored hs ∪ API_REQUEST).
  split; [by apply prepared_of_run|].
  split; [|split].
  - intros k v Hk Hv Hn.
    destruct (stored_serialized v Hv Hn (Hser k v Hk)) as (s & Hs & Hst).
    exists s. split; [done|]. by apply (merged_lookup_kept hs k v).
  - intros k v Hk Hv Hn. apply (merged_lookup_kept hs k v); [done|].
    by apply stored_plain.
  - intros k v Hk Hv. apply merged_lookup_default. intros v0 Hv0. congruence.
Qed.

(** C8: header preparation leaves the caller's dict as it was, and with it
    every dict that existed before the call and the rest of the world; this
    holds for a return and for a raise, and a returned reference is one of a
    dict allocated by the call. *)
Theorem prepare_request_headers_frame (headers : loc) (w : World)
    (hs : gmap string header_value) :
  heap w !! headers = Some hs →
  heap (prepare_request_headers headers w).1 !! headers = Some hs
  ∧ (∀ l d, heap w !! l = Some d →
       heap (prepare_request_headers headers w).1 !! l = Some d)
  ∧ auth (prepare_request_headers headers w).1 = auth w
  ∧ wire (prepare_request_headers headers w).1 = wire w
  ∧ logs (prepare_request_headers headers w).1 = logs w
  ∧ attempts (prepare_request_headers headers w).1 = attempts w
  ∧ (∀ l, (prepare_request_headers headers w).2 = Return l → l ≠ headers).
Proof.
  intros Hhs.
  destruct (prepare_request_headers_run headers w) as (ext & r & -> & Hfresh & _).
  simpl. split; [by apply lookup_app_l_Some|].
  split; [intros l d Hl; by apply lookup_app_l_Some|].
  do 4 (split; [done|]).
  intros l -> ->. apply lookup_lt_Some in Hhs. specialize (Hfresh _ eq_refl). lia.
Qed.

Lemma serializes_false (v : header_value) :
  py_bool v = true → needs_serialization v = true → json_dumps v = None →
  serializes v = false.
Proof.
  intros Hv Hn Hd. unfold serializes. by rewrite Hv, Hn, Hd.
Qed.

(** A value the serializer rejects stops the first loop with TypeError,
    wherever it comes in the iteration. *)
Lemma prepare_loop_raises (rh : loc) (items : list (string * header_value)) :
  ∀ (w : World) (acc : gmap string header_value),
    heap w !! rh = Some acc →
    Exists (λ item, serializes item.2 = false) items →
    (for_each items (prepare_entry rh) w).2 = Raise TypeError.
Proof.
  induction items as [|item items IH]; intros w acc Hrh Hbad.
  - by apply Exists_nil in Hbad.
  - simpl. unfold bind. rewrite (prepare_entry_run _ _ _ _ Hrh).
    destruct (serializes item.2) eqn:Hser; [|done].
    apply Exists_cons in Hbad as [Hbad|Hbad]; [congruence|].
    by apply (IH _ (store_entry acc item)); [apply heap_after_insert with acc|].
Qed.

(** X4: when some header of the caller is truthy, is a model, an enumeration
    member or a UUID, and is rejected by the serializer, header preparation
    raises TypeError: there is no prepared mapping, whatever the other
    headers are. *)
Theorem prepare_request_headers_raises (headers : loc) (w : World)
    (hs : gmap string header_value) (k : string) (v : header_value) :
  heap w !! headers = Some hs →
  hs !! k = Some v →
  py_bool v = true →
  needs_serialization v = true →
  json_dumps v = None →
  (prepare_request_headers headers w).2 = Raise TypeError
  ∧ prepared_of w headers = None.
Proof.
  intros Hhs Hk Hv Hn Hd.
  assert (Hraise : (prepare_request_headers headers w).2 = Raise TypeError).
  { unfold prepare_request_headers, bind, new_dict, dict_items, bind, deref, ret.
    simpl heap.
    destruct (for_each _ _ _) as [w2 r] eqn:Hloop.
    assert (r = Raise TypeError) as ->; [|done].
    change r with (w2, r).2. rewrite <- Hloop.
    apply (prepare_loop_raises _ _ _ ∅); [simpl; by apply list_lookup_middle|].
    apply Exists_exists. exists (k, v). split.
    - apply elem_of_map_to_list.
      rewrite (list_lookup_total_correct _ _ hs); [done|].
      by apply lookup_app_l_Some.
    - by apply serializes_false. }
  split; [done|]. unfold prepared_of.
  destruct (prepare_request_headers headers w) as [w' r]. simpl in Hraise.
  by rewrite Hraise.
Qed.

(** X5: when no header of the caller is truthy, in particular when the
    caller passes an empty mapping, the prepared mapping is exactly the
    default set. *)
Theorem prepare_request_headers_all_falsy (headers : loc) (w : World)
    (hs : gmap string header_value) :
  heap w !! headers = Some hs →
  map_Forall (λ _ v, py_bool v = false) hs →
  prepared_of w headers = Some API_REQUEST.
Proof.
  intros Hhs Hfalsy. rewrite (prepared_of_run headers w hs Hhs).
  - f_equal. apply map_eq. intros k. rewrite merged_lookup_default; [done|].
    intros v Hk. by apply (Hfalsy k v).
  - intros k v Hk. unfold serializes. by rewrite (Hfalsy k v Hk).
Qed.

(** X6: the merge step never raises; the dict it returns holds every entry
    of the dict it was given, unchanged, and for every other key the default,
    if there is one. *)
Theorem fill_request_headers_merge (rh : loc) (w : World)
    (acc : gmap string header_value) :
  heap w !! rh = Some acc →
  ∃ w' l merged,
    fill_request_headers rh w = (w', Return l)
    ∧ heap w' !! l = Some merged
    ∧ ∀ k, merged !! k = match acc !! k with
                         | Some v => Some v
                         | None => API_REQUEST !! k
                         end.
Proof.
  intros Hrh. rewrite (fill_request_headers_run rh w acc Hrh).
  assert (Hmerged : ∀ k, (acc ∪ API_REQUEST) !! k
                         = match acc !! k with
                           | Some v => Some v
                           | None => API_REQUEST !! k
                           end).
  { intros k. rewrite lookup_union.
    destruct (acc !! k), (API_REQUEST !! k); done. }
  destruct (Nat.eqb (size acc) 0).
  - eexists _, _, (acc ∪ API_REQUEST). split; [done|]. split; [|done].
    simpl. by apply list_lookup_middle.
  - eexists _, _, (acc ∪ API_REQUEST). split; [done|]. split; [|done].
    simpl. apply list_lookup_insert_eq. by eapply lookup_lt_Some.
Qed.

(** X7: the merge step writes into the dict it is given and returns that
    same dict when it has entries; given an empty dict it leaves it empty and
    returns a new dict instead.  No other dict is touched. *)
Theorem fill_request_headers_in_place (rh : loc) (w : World)
    (acc : gmap string header_value) :
  heap w !! rh = Some acc →
  ∃ w' l,
    fill_request_headers rh w = (w', Return l)
    ∧ (acc ≠ ∅ → l = rh ∧ length (heap w') = length (heap w))
    ∧ (acc = ∅ → l = length (heap w) ∧ heap w' !! rh = Some ∅)
    ∧ (∀ l' d, l' ≠ rh → heap w !! l' = Some d → heap w' !! l' = Some d).
Proof.
  intros Hrh. rewrite (fill_request_headers_run rh w acc Hrh).
  destruct (Nat.eqb (size acc) 0) eqn:Hsize.
  - apply Nat.eqb_eq, map_size_empty_iff in Hsize as ->.
    eexists _, _. split; [done|]. simpl. split; [done|]. split.
    + intros _. split; [done|]. by apply lookup_app_l_Some.
    + intros l' d _ Hl'. by apply lookup_app_l_Some.
  - apply Nat.eqb_neq in Hsize.
    eexists _, _. split; [done|]. simpl. split; [|split].
    + intros _. split; [done|]. apply length_insert.
    + intros ->. by rewrite map_size_empty in Hsize.
    + intros l' d Hne Hl'. by rewrite list_lookup_insert_ne.
Qed.

(** X8: the merge step is idempotent: applied to the dict it returned, it
    returns a dict with the same entries. *)
Theorem fill_request_headers_idempotent (rh : loc) (w : World)
    (acc : gmap string header_value) :
  heap w !! rh = Some acc →
  ∃ w1 l1 w2 l2 merged,
    fill_request_headers rh w = (w1, Return l1)
    ∧ heap w1 !! l1 = Some merged
    ∧ fill_request_headers l1 w1 = (w2, Return l2)
    ∧ heap w2 !! l2 = Some merged.
Proof.
  intros Hrh.
  assert (Hagain : ∀ w1 l1, heap w1 !! l1 = Some (acc ∪ API_REQUEST) →
            ∃ w2 l2, fill_request_headers l1 w1 = (w2, Return l2)
                     ∧ heap w2 !! l2 = Some (acc ∪ API_REQUEST)).
  { intros w1 l1 Hl1. rewrite (fill_request_headers_run l1 w1 _ Hl1).
    assert ((acc ∪ API_REQUEST) ∪ API_REQUEST = acc ∪ API_REQUEST) as ->.
    { by rewrite <- (assoc_L (∪)), (idemp_L (∪)). }
    destruct (Nat.eqb (size (acc ∪ API_REQUEST)) 0).
    - eexists _, _. split; [done|]. simpl. by apply list_lookup_middle.
    - eexists _, _. split; [done|]. simpl. apply list_lookup_insert_eq.
      by eapply lookup_lt_Some. }
  rewrite (fill_request_headers_run rh w acc Hrh).
  destruct (Nat.eqb (size acc) 0).
  - destruct (Hagain (set_heap (heap w ++ [acc ∪ API_REQUEST]) w) (length (heap w)))
      as (w2 & l2 & Hrun & Hl2); [simpl; by apply list_lookup_middle|].
    eexists _, _, w2, l2, (acc ∪ API_REQUEST). repeat split; try done.
    simpl. by apply list_lookup_middle.
  - destruct (Hagain (set_heap (<[rh := acc ∪ API_REQUEST]> (heap w)) w) rh)
      as (w2 & l2 & Hrun & Hl2).
    { simpl. apply list_lookup_insert_eq. by eapply lookup_lt_Some. }
    eexists _, _, w2, l2, (acc ∪ API_REQUEST). repeat split; try done.
    simpl. apply list_lookup_insert_eq. by eapply lookup_lt_Some.
Qed.

End Headers.

(** ** Dispatch *)

Section Dispatch.
Context `{Transport}.

Lemma build_response_wire (response : Response)
    (response_models : list (option Shape))
    (error_responses : gmap Z ErrorResponse) (w : World) :
  wire (build_response response response_models error_responses w).1 = wire w.
Proof.
  destruct (py_in (status_code response) OK_STATUS_CODES_RANGE) eqn:Hr.
  - unfold build_response. rewrite Hr. simpl.
    by destruct (try_response_models_world response response_models w)
      as (tried & o & ->).
  - by destruct (build_response_error_world response response_models
                   error_responses w Hr) as [e ->].
Qed.

(** C6: when the steps before the dispatch go through (token refresh, header
    preparation, export of the body), exactly one request is handed to the
    transport; it carries no payload when the body is absent, and otherwise
    the body's JSON export taken with exclude_none and exclude_unset. *)
Theorem call_payload (self : ApiClient) (method url : string)
    (body : option BaseModel) (headers : loc)
    (response_models : list (option Shape))
    (error_responses : gmap Z ErrorResponse) (w : World)
    (hs : gmap string header_value) :
  is_Some (refresh_token (auth w)) →
  heap w !! headers = Some hs →
  map_Forall (λ _ v, serializes v = true) hs →
  (∀ b, body = Some b → is_Some (BaseModel_json b true true)) →
  ∃ request,
    wire (call self method url body headers response_models error_responses w).1
    = wire w ++ [request]
    ∧ (body = None → req_data request = None)
    ∧ (∀ b, body = Some b →
         ∃ s, BaseModel_json b true true = Some s ∧ req_data request = Some s).
Proof.
  intros [a Ha] Hhs Hser Hbody.
  unfold call, bind, auth_client_refresh_token, call_or_raise, requests_dot_request,
    ret, raise, deref, LOG_info.
  rewrite Ha.
  destruct (prepare_request_headers_run headers (set_auth a w))
    as (ext & r & -> & _ & Hspec).
  destruct (Hspec hs Hhs Hser) as (l & -> & _). clear Hspec.
  destruct body as [b|].
  - destruct (Hbody b eq_refl) as [s Hs]. rewrite Hs.
    eexists. split.
    { destruct (requests_request _) as [response|]; [|reflexivity].
      rewrite build_response_wire. reflexivity. }
    split; [done|]. intros b' [= <-]. eauto.
  - eexists. split.
    { destruct (requests_request _) as [response|]; [|reflexivity].
      rewrite build_response_wire. reflexivity. }
    split; [reflexivity|done].
Qed.

(** A call whose preparation steps go through: what is sent, what is
    logged, and where the outcome comes from. *)
Lemma call_run (self : ApiClient) (method url : string)
    (body : option BaseModel) (headers : loc)
    (response_models : list (option Shape))
    (error_responses : gmap Z ErrorResponse) (w : World)
    (a : AuthState) (hs : gmap string header_value) :
  refresh_token (auth w) = Some a →
  heap w !! headers = Some hs →
  map_Forall (λ _ v, serializes v = true) hs →
  (∀ b, body = Some b → is_Some (BaseModel_json b true true)) →
  ∃ ext,
    call self method url body headers response_models error_responses w
    = let request :=
        {| req_method := upper method; req_url := url;
           req_headers := omap stored hs ∪ API_REQUEST;
           req_data := body ≫= (λ b, BaseModel_json b true true);
           req_auth := auth_header a;
           req_timeout := request_timeout self |} in
      let w1 := set_wire (wire w ++ [request])
                  (set_heap (heap w ++ ext) (set_auth a w)) in
      match requests_request request with
      | Some response =>
          build_response response response_models error_responses
            (set_logs
               (logs w ++
                [EXPEDIAGROUP_LOG_MESSAGE_TEMPLATE_format
                   (request_log (omap stored hs ∪ API_REQUEST)
                      (default "{}" (body ≫= (λ b, BaseModel_json b true true)))
                      url method response)]) w1)
      | None => (w1, Raise TransportError)
      end.
Proof.
  intros Ha Hhs Hser Hbody.
  unfold call, bind, auth_client_refresh_token, call_or_raise, requests_dot_request,
    ret, raise, deref, LOG_info.
  rewrite Ha.
  destruct (prepare_request_headers_run headers (set_auth a w))
    as (ext & r & -> & _ & Hspec).
  destruct (Hspec hs Hhs Hser) as (l & -> & Hl). clear Hspec.
  exists ext. cbn [heap set_heap set_auth] in Hl.
  destruct body as [b|].
  - destruct (Hbody b eq_refl) as [s Hs]. rewrite Hs.
    cbn [heap auth wire logs set_heap set_auth set_wire set_logs mbind option_bind].
    rewrite !(list_lookup_total_correct _ _ _ Hl), Hs.
    destruct (requests_request _) as [response|]; [|done].
    cbn [heap auth wire logs set_heap set_auth set_wire set_logs].
    by rewrite (list_lookup_total_correct _ _ _ Hl).
  - cbn [heap auth wire logs set_heap set_auth set_wire set_logs mbind option_bind].
    rewrite !(list_lookup_total_correct _ _ _ Hl).
    destruct (requests_request _) as [response|]; [|done].
    cbn [heap auth wire logs set_heap set_auth set_wire set_logs].
    by rewrite (list_lookup_total_correct _ _ _ Hl).
Qed.

(** Whatever the outcome, a call only allocates dicts, sends at most one
    request and logs at most one message. *)
Lemma call_world (self : ApiClient) (method url : string)
    (body : option BaseModel) (headers : loc)
    (response_models : list (option Shape))
    (error_responses : gmap Z ErrorResponse) (w : World) :
  ∃ ext sent logged,
    heap (call self method url body headers response_models error_responses w).1
    = heap w ++ ext
    ∧ wire (call self method url body headers response_models error_responses w).1
      = wire w ++ sent
    ∧ logs (call self method url body headers response_models error_responses w).1
      = logs w ++ logged
    ∧ (length sent ≤ 1)%nat ∧ (length logged ≤ 1)%nat.
Proof.
  unfold call, bind, auth_client_refresh_token, call_or_raise, requests_dot_request,
    ret, raise, deref, LOG_info.
  destruct (refresh_token (auth w)) as [a|].
  2: { exists [], [], []. simpl. rewrite !app_nil_r. repeat split; first [done | lia]. }
  destruct (prepare_request_headers_run headers (set_auth a w))
    as (ext & r & -> & _ & _).
  destruct r as [l|e].
  2: { exists ext, [], []. simpl. rewrite !app_nil_r. repeat split; first [done | lia]. }
  destruct body as [b|].
  - destruct (BaseModel_json b true true) as [s|].
    2: { exists ext, [], []. simpl. rewrite !app_nil_r. repeat split; first [done | lia]. }
    destruct (requests_request _) as [response|].
    + match goal with
      | |- context [build_response ?r ?m ?e ?w0] =>
          destruct (build_response_world r m e w0) as [tried ->]
      end.
      eexists ext, [_], [_]. simpl. repeat split; first [done | lia].
    + eexists ext, [_], []. simpl. rewrite app_nil_r. repeat split; first [done | lia].
  - destruct (requests_request _) as [response|].
    + match goal with
      | |- context [build_response ?r ?m ?e ?w0] =>
          destruct (build_response_world r m e w0) as [tried ->]
      end.
      eexists ext, [_], [_]. simpl. repeat split; first [done | lia].
    + eexists ext, [_], []. simpl. rewrite app_nil_r. repeat split; first [done | lia].
Qed.


(** X10: when the transport answers, exactly one message is logged, built
    from the prepared headers, the exported body (or the text of an empty
    dict when there is no body), the URL, the method as passed and the
    response; it is logged before resolution, so also when resolution
    raises. *)
Theorem call_logs_response (self : ApiClient) (method url : string)
    (body : option BaseModel) (headers : loc)
    (response_models : list (option Shape))
    (error_responses : gmap Z ErrorResponse) (w : World)
    (a : AuthState) (hs : gmap string header_value) (response : Response) :
  refresh_token (auth w) = Some a →
  heap w !! headers = Some hs →
  map_Forall (λ _ v, serializes v = true) hs →
  (∀ b, body = Some b → is_Some (BaseModel_json b true true)) →
  requests_request
    {| req_method := upper method; req_url := url;
       req_headers := omap stored hs ∪ API_REQUEST;
       req_data := body ≫= (λ b, BaseModel_json b true true);
       req_auth := auth_header a;
       req_timeout := request_timeout self |} = Some response →
  logs (call self method url body headers response_models error_responses w).1
  = logs w ++
    [EXPEDIAGROUP_LOG_MESSAGE_TEMPLATE_format
       (request_log (omap stored hs ∪ API_REQUEST)
          (default "{}" (body ≫= (λ b, BaseModel_json b true true)))
          url method response)].
Proof.
  intros Ha Hhs Hser Hbody Hresponse.
  destruct (call_run self method url body headers response_models
              error_responses w a hs Ha Hhs Hser Hbody) as [ext ->].
  simpl. rewrite Hresponse.
  match goal with
  | |- context [build_response ?r ?m ?e ?w0] =>
      by destruct (build_response_world r m e w0) as [tried ->]
  end.
Qed.

(** X11: when the transport fails, the call raises the transport error after
    the request went out; nothing is logged and no candidate is tried. *)
Theorem call_transport_failure (self : ApiClient) (method url : string)
    (body : option BaseModel) (headers : loc)
    (response_models : list (option Shape))
    (error_responses : gmap Z ErrorResponse) (w : World)
    (a : AuthState) (hs : gmap string header_value) :
  refresh_token (auth w) = Some a →
  heap w !! headers = Some hs →
  map_Forall (λ _ v, serializes v = true) hs →
  (∀ b, body = Some b → is_Some (BaseModel_json b true true)) →
  requests_request
    {| req_method := upper method; req_url := url;
       req_headers := omap stored hs ∪ API_REQUEST;
       req_data := body ≫= (λ b, BaseModel_json b true true);
       req_auth := auth_header a;
       req_timeout := request_timeout self |} = None →
  (call self method url body headers response_models error_responses w).2
  = Raise TransportError
  ∧ logs (call self method url body headers response_models error_responses w).1
    = logs w
  ∧ attempts (call self method url body headers response_models error_responses w).1
    = attempts w.
Proof.
  intros Ha Hhs Hser Hbody Hresponse.
  destruct (call_run self method url body headers response_models
              error_responses w a hs Ha Hhs Hser Hbody) as [ext ->].
  simpl. by rewrite Hresponse.
Qed.

(** X12: when the transport answers, the outcome of the call, value or
    exception, is the outcome of response resolution on that response. *)
Theorem call_result (self : ApiClient) (method url : string)
    (body : option BaseModel) (headers : loc)
    (response_models : list (option Shape))
    (error_responses : gmap Z ErrorResponse) (w : World)
    (a : AuthState) (hs : gmap string header_value) (response : Response) :
  refresh_token (auth w) = Some a →
  heap w !! headers = Some hs →
  map_Forall (λ _ v, serializes v = true) hs →
  (∀ b, body = Some b → is_Some (BaseModel_json b true true)) →
  requests_request
    {| req_method := upper method; req_url := url;
       req_headers := omap stored hs ∪ API_REQUEST;
       req_data := body ≫= (λ b, BaseModel_json b true true);
       req_auth := auth_header a;
       req_timeout := request_timeout self |} = Some response →
  (call self method url body headers response_models error_responses w).2
  = (build_response response response_models error_responses w).2.
Proof.
  intros Ha Hhs Hser Hbody Hresponse.
  destruct (call_run self method url body headers response_models
              error_responses w a hs Ha Hhs Hser Hbody) as [ext ->].
  simpl. rewrite Hresponse. apply build_response_result.
Qed.

(** X13: when the token refresh fails, the call raises at once: no dict is
    allocated, nothing is sent, nothing is logged. *)
Theorem call_refresh_failure (self : ApiClient) (method url : string)
    (body : option BaseModel) (headers : loc)
    (response_models : list (option Shape))
    (error_responses : gmap Z ErrorResponse) (w : World) :
  refresh_token (auth w) = None →
  call self method url body headers response_models error_responses w
  = (w, Raise AuthError).
Proof.
  intros Ha. unfold call, bind, auth_client_refresh_token. by rewrite Ha.
Qed.

(** X14: when a header of the caller is rejected by the serializer, the call
    raises TypeError after the token refresh and before the dispatch:
    nothing is sent and nothing is logged. *)
Theorem call_header_failure (self : ApiClient) (method url : string)
    (body : option BaseModel) (headers : loc)
    (response_models : list (option Shape))
    (error_responses : gmap Z ErrorResponse) (w : World)
    (a : AuthState) (hs : gmap string header_value)
    (k : string) (v : header_value) :
  refresh_token (auth w) = Some a →
  heap w !! headers = Some hs →
  hs !! k = Some v →
  py_bool v = true →
  needs_serialization v = true →
  json_dumps v = None →
  (call self method url body headers response_models error_responses w).2
  = Raise TypeError
  ∧ auth (call self method url body headers response_models error_responses w).1
    = a
  ∧ wire (call self method url body headers response_models error_responses w).1
    = wire w
  ∧ logs (call self method url body headers response_models error_responses w).1
    = logs w.
Proof.
  intros Ha Hhs Hk Hv Hn Hd.
  destruct (prepare_request_headers_raises headers (set_auth a w) hs k v
              Hhs Hk Hv Hn Hd) as [Hraise _].
  destruct (prepare_request_headers_run headers (set_auth a w))
    as (ext & r & Hrun & _ & _).
  rewrite Hrun in Hraise. simpl in Hraise. subst r.
  unfold call, bind, auth_client_refresh_token. by rewrite Ha, Hrun.
Qed.

(** X15: when the body cannot be exported, the call raises TypeError before
    the dispatch: nothing is sent and nothing is logged. *)
Theorem call_body_failure (self : ApiClient) (method url : string)
    (b : BaseModel) (headers : loc)
    (response_models : list (option Shape))
    (error_responses : gmap Z ErrorResponse) (w : World)
    (a : AuthState) (hs : gmap string header_value) :
  refresh_token (auth w) = Some a →
  heap w !! headers = Some hs →
  map_Forall (λ _ v, serializes v = true) hs →
  BaseModel_json b true true = None →
  (call self method url (Some b) headers response_models error_responses w).2
  = Raise TypeError
  ∧ wire (call self method url (Some b) headers response_models error_responses w).1
    = wire w
  ∧ logs (call self method url (Some b) headers response_models error_responses w).1
    = logs w.
Proof.
  intros Ha Hhs Hser Hb.
  unfold call, bind, auth_client_refresh_token, call_or_raise, raise.
  rewrite Ha.
  destruct (prepare_request_headers_run headers (set_auth a w))
    as (ext & r & -> & _ & Hspec).
  destruct (Hspec hs Hhs Hser) as (l & -> & _).
  by rewrite Hb.
Qed.

(** X16: whatever the outcome of a call, every dict that existed before it,
    the caller's headers included, is unchanged; at most one request is
    sent and at most one message is logged. *)
Theorem call_effects (self : ApiClient) (method url : string)
    (body : option BaseModel) (headers : loc)
    (response_models : list (option Shape))
    (error_responses : gmap Z ErrorResponse) (w : World) :
  (∀ l d, heap w !! l = Some d →
     heap (call self method url body headers response_models error_responses w).1
       !! l = Some d)
  ∧ (wire (call self method url body headers response_models error_responses w).1
       = wire w
     ∨ ∃ request,
         wire (call self method url body headers response_models error_responses w).1
         = wire w ++ [request])
  ∧ (logs (call self method url body headers response_models error_responses w).1
       = logs w
     ∨ ∃ msg,
         logs (call self method url body headers response_models error_responses w).1
         = logs w ++ [msg]).
Proof.
  destruct (call_world self method url body headers response_models
              error_responses w)
    as (ext & sent & logged & -> & -> & -> & Hsent & Hlogged).
  split; [|split].
  - intros l d Hl. by apply lookup_app_l_Some.
  - destruct sent as [|request [|]]; simpl in Hsent; [|by eauto|lia].
    left. by rewrite app_nil_r.
  - destruct logged as [|msg [|]]; simpl in Hlogged; [|by eauto|lia].
    left. by rewrite app_nil_r.
Qed.

(** X17: a client built by [__init__] from a configuration sends its
    requests with the configuration's timeout and with the credential of the
    auth client built from the configuration's credentials and auth
    endpoint, refreshed once; the URL is the one passed to the call. *)
Theorem init_call_request {Creds : Type} (config : Config.ClientConfig Creds)
    (auth_client_cls : Creds → string → AuthState) (method url : string)
    (body : option BaseModel) (headers : loc)
    (response_models : list (option Shape))
    (error_responses : gmap Z ErrorResponse) (w : World)
    (a : AuthState) (hs : gmap string header_value) :
  refresh_token
    (auth_client_cls (Config.credentials (Config.auth_config config))
       (Config.auth_endpoint (Config.auth_config config))) = Some a →
  heap w !! headers = Some hs →
  map_Forall (λ _ v, serializes v = true) hs →
  (∀ b, body = Some b → is_Some (BaseModel_json b true true)) →
  ∃ request,
    wire (bind (__init__ config auth_client_cls)
            (λ self, call self method url body headers response_models
                       error_responses) w).1
    = wire w ++ [request]
    ∧ req_timeout request = Config.request_timeout config
    ∧ req_auth request = auth_header a
    ∧ req_url request = url.
Proof.
  intros Ha Hhs Hser Hbody. unfold bind at 1, __init__.
  set (self := Build_ApiClient _ _).
  set (w0 := set_auth _ w).
  destruct (call_run self method url body headers response_models
              error_responses w0 a hs Ha Hhs Hser Hbody) as [ext ->].
  eexists. split.
  { simpl. destruct (requests_request _) as [response|]; [|reflexivity].
    rewrite build_response_wire. reflexivity. }
  done.
Qed.

End Dispatch.

(** * The properties on the concrete instance *)

Import Demo.

Lemma caller_headers_serialize :
  map_Forall (λ _ v, serializes v = true) caller_headers.
Proof. repeat (apply map_Forall_insert_2; [reflexivity|]). apply map_Forall_empty. Qed.

(** The scenario of a GET answered by 404 with a message: the registered
    exception, with the parsed error and the status code. *)
Example call_not_found :
  (call client "get" "https://api.example.com/x" None 0%nat [Some UserModel]
     error_map (world [∅])).2
  = Raise (ServiceException "NotFoundException"
             {| obj_shape := "NotFoundError"; obj_fields := [("message", "missing")] |}
             (HTTPStatusMember 404)).
Proof. vm_compute. reflexivity. Qed.

(** The default candidate list on a success status: no value, no raise. *)
Example build_response_default_models :
  build_response ok_b [None] error_map (world []) = (world [], Return None).
Proof. reflexivity. Qed.

Lemma build_response_raises_iff_witness :
  attempts (build_response not_found [Some UserModel] error_map (world [])).1
  = attempts (world []).
Proof.
  apply (proj1 (proj2 (build_response_raises_iff not_found [Some UserModel]
                         error_map (world [])))).
  reflexivity.
Defined.

Lemma build_response_typed_exception_witness :
  ∃ error_code,
    build_response not_found [Some UserModel] error_map (world [])
    = (world [],
       Raise (exception_of "NotFoundException"
                {| obj_shape := "NotFoundError";
                   obj_fields := [("message", "missing")] |} error_code))
    ∧ http_status_value error_code = 404.
Proof.
  apply (proj1 (build_response_typed_exception not_found [Some UserModel]
                  error_map (world []) (JObj [("message", "missing")])
                  eq_refl eq_refl eq_refl)
           not_found_entry).
  - reflexivity.
  - reflexivity.
Defined.

(** C2: the code misses the claim at status 599.  The status is outside the
    success range and has no entry in the error map, and the body is JSON
    that the generic Error shape accepts, so the claim asks for the generic
    API exception carrying that parse and 599; the code evaluates
    [HTTPStatus(599)] while building that exception, and what is raised is
    the ValueError of that call, with no typed API exception at all. *)
Theorem build_response_typed_exception_fails :
  py_in (status_code unassigned) OK_STATUS_CODES_RANGE = false
  ∧ error_map !! status_code unassigned = None
  ∧ json_body unassigned ≫= parse_obj_as Error
    = Some {| obj_shape := "Error"; obj_fields := [] |}
  ∧ build_response unassigned [Some UserModel] error_map (world [])
    = (world [], Raise (ValueError 599))
  ∧ ¬ ∃ cls error error_code,
        (build_response unassigned [Some UserModel] error_map (world [])).2
        = Raise (exception_of cls error error_code).
Proof.
  split; [reflexivity|]. split; [reflexivity|]. split; [reflexivity|].
  split; [reflexivity|].
  intros (cls & error & error_code & Heq). vm_compute in Heq. discriminate Heq.
Qed.

Lemma build_response_first_match_witness :
  build_response ok_b [Some ShapeA; None; Some ShapeB] error_map (world [])
  = (set_attempts [ShapeA; ShapeB] (world []),
     Return (Some {| obj_shape := "ShapeB"; obj_fields := [("b", "1")] |})).
Proof.
  apply (proj1 (build_response_first_match ok_b [Some ShapeA; None; Some ShapeB]
                  error_map (world []) eq_refl)
           [Some ShapeA; None] ShapeB []).
  - reflexivity.
  - repeat constructor.
    + intros s [= <-]. reflexivity.
    + intros s [=].
  - reflexivity.
Defined.

Lemma build_response_invalid_http_status_witness :
  build_response unassigned [Some UserModel] error_map (world [])
  = (world [], Raise (ValueError 599)).
Proof.
  apply (build_response_invalid_http_status unassigned [Some UserModel] error_map
           (world []) (JObj [("message", "boom")])).
  - reflexivity.
  - reflexivity.
  - reflexivity.
  - vm_compute. eauto.
Defined.

(** C9 as stated fails: 599 is outside the success range and not a member of
    HTTPStatus, but with a body that is not JSON the exception is the JSON
    decode error, raised before HTTPStatus is called. *)
Lemma build_response_invalid_http_status_fails :
  py_in (status_code unassigned_html) OK_STATUS_CODES_RANGE = false
  ∧ py_in (status_code unassigned_html) HTTPStatus_values = false
  ∧ (build_response unassigned_html [Some UserModel] error_map (world [])).2
    = Raise JSONDecodeError
  ∧ (build_response unassigned_html [Some UserModel] error_map (world [])).2
    ≠ Raise (ValueError (status_code unassigned_html)).
Proof.
  split; [reflexivity|]. split; [reflexivity|]. split; [reflexivity|].
  intros Heq. vm_compute in Heq. discriminate Heq.
Qed.

Lemma build_response_error_body_not_json_witness :
  build_response bad_gateway_html [Some UserModel] error_map (world [])
  = (world [], Raise JSONDecodeError).
Proof.
  apply (build_response_error_body_not_json bad_gateway_html [Some UserModel]
           error_map (world [])).
  - reflexivity.
  - reflexivity.
Defined.

Lemma prepare_request_headers_merge_witness :
  ∃ prepared,
    prepared_of (world [caller_headers]) 0%nat = Some prepared
    ∧ prepared !! "Accept" = Some (PyStr "text/plain")
    ∧ prepared !! "Content-Type" = Some (PyStr "application/json").
Proof.
  destruct (prepare_request_headers_merge 0%nat (world [caller_headers])
              caller_headers eq_refl caller_headers_serialize)
    as (prepared & Hprepared & Hkept & Hdefault & _).
  exists prepared. split; [exact Hprepared|]. split.
  - apply (Hkept "Accept" (PyStr "text/plain")); reflexivity.
  - apply (Hdefault "Content-Type" (PyStr "application/json")); [reflexivity|].
    intros v Hv. vm_compute in Hv. discriminate Hv.
Defined.

(** C3 as stated fails: the caller's key X-Trace, whose value is None, is
    not in the prepared mapping, which here is exactly the defaults. *)
Lemma prepare_request_headers_merge_fails :
  prepared_of (world [only_none]) 0%nat = Some defaults
  ∧ ¬ (∀ k v, only_none !! k = Some v → defaults !! k = Some v).
Proof.
  split; [vm_compute; reflexivity|].
  intros Hall. specialize (Hall "X-Trace" PyNone eq_refl).
  vm_compute in Hall. discriminate Hall.
Qed.

Lemma prepare_request_headers_none_witness :
  ∃ prepared,
    prepared_of (world [caller_headers]) 0%nat = Some prepared
    ∧ prepared !! "X-Trace" = None.
Proof.
  destruct (prepare_request_headers_none 0%nat (world [caller_headers])
              caller_headers "X-Trace" eq_refl caller_headers_serialize eq_refl)
    as (prepared & Hprepared & _ & Habsent).
  exists prepared. split; [exact Hprepared|]. apply Habsent. reflexivity.
Defined.

(** C5 as stated fails: the caller passes None for Accept, a key of the
    defaults, and the prepared mapping holds Accept with the default. *)
Lemma prepare_request_headers_none_fails :
  none_on_default !! "Accept" = Some PyNone
  ∧ prepared_of (world [none_on_default]) 0%nat = Some defaults
  ∧ defaults !! "Accept" = Some (PyStr "application/json").
Proof. repeat split; vm_compute; reflexivity. Qed.

Lemma prepare_request_headers_values_witness :
  ∃ prepared,
    prepared_of (world [caller_headers]) 0%nat = Some prepared
    ∧ prepared !! "X-Request-Id" = Some (PyStr "123e4567")
    ∧ prepared !! "Accept" = Some (PyStr "text/plain").
Proof.
  destruct (prepare_request_headers_values 0%nat (world [caller_headers])
              caller_headers eq_refl caller_headers_serialize)
    as (prepared & Hprepared & Hserialized & Hplain & _).
  exists prepared. split; [exact Hprepared|]. split.
  - destruct (Hserialized "X-Request-Id" request_id eq_refl eq_refl eq_refl)
      as (s & Hs & Hk).
    rewrite Hk. vm_compute in Hs. injection Hs as <-. reflexivity.
  - apply (Hplain "Accept" (PyStr "text/plain")); reflexivity.
Defined.

(** C7 as stated fails: the integer 0 is neither None nor a value that is
    serialized, and it does not reach the prepared mapping. *)
Lemma prepare_request_headers_values_fails :
  zero_count !! "X-Retry-Count" = Some (PyInt 0)
  ∧ needs_serialization (PyInt 0) = false
  ∧ prepared_of (world [zero_count]) 0%nat = Some defaults
  ∧ defaults !! "X-Retry-Count" = None.
Proof. repeat split; vm_compute; reflexivity. Qed.

Lemma prepare_request_headers_frame_witness :
  heap (prepare_request_headers 0%nat (world [caller_headers])).1 !! 0%nat
  = Some caller_headers.
Proof.
  apply (proj1 (prepare_request_headers_frame 0%nat (world [caller_headers])
                  caller_headers eq_refl)).
Defined.

Lemma call_payload_witness :
  ∃ request,
    wire (call client "post" "https://api.example.com/users/7" (Some new_user)
            0%nat [Some UserModel] error_map (world [caller_headers])).1
    = [request]
    ∧ req_data request = Some "name=ada;".
Proof.
  destruct (call_payload client "post" "https://api.example.com/users/7"
              (Some new_user) 0%nat [Some UserModel] error_map
              (world [caller_headers]) caller_headers)
    as (request & Hwire & _ & Hbody).
  - by exists 1%nat.
  - reflexivity.
  - exact caller_headers_serialize.
  - intros b [= <-]. by eexists.
  - exists request. split; [exact Hwire|].
    destruct (Hbody new_user eq_refl) as (s & Hs & ->).
    vm_compute in Hs. injection Hs as <-. reflexivity.
Defined.

(** ** Further properties on the concrete instances *)

Lemma build_response_validation_error_witness :
  build_response not_found_text [Some UserModel] error_map (world [])
  = (world [], Raise ValidationError).
Proof.
  apply (build_response_validation_error not_found_text [Some UserModel]
           error_map (world []) (JStr "missing")); reflexivity.
Defined.

Lemma build_response_success_not_json_witness :
  build_response ok_html [Some ShapeA; None; Some ShapeB] error_map (world [])
  = (set_attempts [ShapeA; ShapeB] (world []), Return None).
Proof.
  apply (build_response_success_not_json ok_html [Some ShapeA; None; Some ShapeB]
           error_map (world [])); reflexivity.
Defined.

Lemma build_response_success_trace_witness :
  ∃ tried o,
    build_response ok_b [Some ShapeA; None; Some ShapeB] error_map (world [])
    = (set_attempts (attempts (world []) ++ tried) (world []), Return o)
    ∧ tried `prefix_of` [ShapeA; ShapeB].
Proof.
  destruct (build_response_success_trace ok_b [Some ShapeA; None; Some ShapeB]
              error_map (world []) eq_refl) as (tried & o & Hrun & Hprefix & _).
  exists tried, o. split; [exact Hrun | exact Hprefix].
Defined.

Lemma prepare_request_headers_raises_witness :
  (prepare_request_headers 0%nat (world [bad_headers])).2 = Raise TypeError
  ∧ prepared_of (world [bad_headers]) 0%nat = None.
Proof.
  apply (prepare_request_headers_raises 0%nat (world [bad_headers]) bad_headers
           "X-Mode" odd_mode); reflexivity.
Defined.

Lemma prepare_request_headers_all_falsy_witness :
  prepared_of (world [only_none]) 0%nat = Some API_REQUEST.
Proof.
  apply (prepare_request_headers_all_falsy 0%nat (world [only_none]) only_none).
  - reflexivity.
  - apply map_Forall_insert_2; [reflexivity|]. apply map_Forall_empty.
Defined.

Lemma fill_request_headers_merge_witness :
  ∃ w' l merged,
    fill_request_headers 0%nat (world [none_on_default]) = (w', Return l)
    ∧ heap w' !! l = Some merged
    ∧ merged !! "Accept" = Some PyNone
    ∧ merged !! "Content-Type" = Some (PyStr "application/json").
Proof.
  destruct (fill_request_headers_merge 0%nat (world [none_on_default])
              none_on_default eq_refl) as (w' & l & merged & Hrun & Hl & Hmerged).
  exists w', l, merged. split; [exact Hrun|]. split; [exact Hl|].
  split; apply Hmerged.
Defined.

Lemma fill_request_headers_in_place_witness :
  ∃ w' l,
    fill_request_headers 0%nat (world [∅]) = (w', Return l)
    ∧ l = 1%nat ∧ heap w' !! 0%nat = Some ∅.
Proof.
  destruct (fill_request_headers_in_place 0%nat (world [∅]) ∅ eq_refl)
    as (w' & l & Hrun & _ & Hempty & _).
  exists w', l. split; [exact Hrun|]. exact (Hempty eq_refl).
Defined.

Lemma fill_request_headers_idempotent_witness :
  ∃ w1 l1 w2 l2 merged,
    fill_request_headers 0%nat (world [caller_headers]) = (w1, Return l1)
    ∧ heap w1 !! l1 = Some merged
    ∧ fill_request_headers l1 w1 = (w2, Return l2)
    ∧ heap w2 !! l2 = Some merged.
Proof.
  exact (fill_request_headers_idempotent 0%nat (world [caller_headers])
           caller_headers eq_refl).
Defined.


Lemma call_logs_response_witness :
  logs (call client "get" "https://api.example.com/x" no_body 0%nat
          user_models error_map (world [caller_headers])).1
  = ["ExpediaGroup: get https://api.example.com/x {}"].
Proof.
  etrans.
  - apply (call_logs_response client "get" "https://api.example.com/x" no_body
             0%nat user_models error_map (world [caller_headers]) 1%nat
             caller_headers not_found).
    + reflexivity.
    + reflexivity.
    + exact caller_headers_serialize.
    + intros b [=].
    + vm_compute. reflexivity.
  - reflexivity.
Defined.

Lemma call_transport_failure_witness :
  (call client "get" "https://api.example.com/down" no_body 0%nat
     user_models error_map (world [caller_headers])).2
  = Raise TransportError.
Proof.
  apply (call_transport_failure client "get" "https://api.example.com/down" no_body
           0%nat user_models error_map (world [caller_headers]) 1%nat
           caller_headers).
  - reflexivity.
  - reflexivity.
  - exact caller_headers_serialize.
  - intros b [=].
  - vm_compute. reflexivity.
Defined.

Lemma call_result_witness :
  (call client "get" "https://api.example.com/x" no_body 0%nat
     user_models error_map (world [caller_headers])).2
  = (build_response not_found user_models error_map
       (world [caller_headers])).2.
Proof.
  apply (call_result client "get" "https://api.example.com/x" no_body 0%nat
           user_models error_map (world [caller_headers]) 1%nat
           caller_headers not_found).
  - reflexivity.
  - reflexivity.
  - exact caller_headers_serialize.
  - intros b [=].
  - vm_compute. reflexivity.
Defined.

Lemma call_refresh_failure_witness :
  @call _ _ Outage.transport Outage.client "get" "https://api.example.com/x" None
    0%nat Outage.no_models Outage.no_errors (Outage.world 0 [Outage.no_headers])
  = (Outage.world 0 [Outage.no_headers], Raise AuthError).
Proof.
  apply (@call_refresh_failure _ _ Outage.transport). reflexivity.
Defined.

Lemma call_header_failure_witness :
  (call client "get" "https://api.example.com/x" no_body 0%nat
     user_models error_map (world [bad_headers])).2
  = Raise TypeError
  ∧ wire (call client "get" "https://api.example.com/x" no_body 0%nat
            user_models error_map (world [bad_headers])).1 = [].
Proof.
  destruct (call_header_failure client "get" "https://api.example.com/x" no_body
              0%nat user_models error_map (world [bad_headers]) 1%nat
              bad_headers "X-Mode" odd_mode eq_refl eq_refl eq_refl eq_refl
              eq_refl eq_refl) as (Hraise & _ & Hwire & _).
  split; [exact Hraise | exact Hwire].
Defined.

Lemma call_body_failure_witness :
  (@call _ _ Outage.transport Outage.client "post" "https://api.example.com/x"
     (Some Outage.nameless) 0%nat Outage.no_models Outage.no_errors
     (Outage.world 1 [Outage.no_headers])).2
  = Raise TypeError.
Proof.
  apply (@call_body_failure _ _ Outage.transport Outage.client "post"
           "https://api.example.com/x" Outage.nameless 0%nat Outage.no_models
           Outage.no_errors (Outage.world 1 [Outage.no_headers]) 1%nat
           Outage.no_headers).
  - reflexivity.
  - reflexivity.
  - apply map_Forall_empty.
  - reflexivity.
Defined.

Lemma call_effects_witness :
  heap (call client "get" "https://api.example.com/x" no_body 0%nat
          user_models error_map (world [caller_headers])).1 !! 0%nat
  = Some caller_headers.
Proof.
  apply (proj1 (call_effects client "get" "https://api.example.com/x" no_body 0%nat
                  user_models error_map (world [caller_headers]))).
  reflexivity.
Defined.

Lemma init_call_request_witness :
  ∃ request,
    wire (bind (__init__ config auth_client_cls)
            (λ self, call self "get" "https://api.example.com/x" no_body 0%nat
                       user_models error_map)
            (world [caller_headers])).1
    = [request]
    ∧ req_timeout request = 30
    ∧ req_auth request = 42%nat
    ∧ req_url request = "https://api.example.com/x".
Proof.
  apply (init_call_request config auth_client_cls "get"
           "https://api.example.com/x" no_body 0%nat user_models error_map
           (world [caller_headers]) 42%nat caller_headers).
  - reflexivity.
  - reflexivity.
  - exact caller_headers_serialize.
  - intros b [=].
Defined.
